(** * Axuy: the world map and camera placement of [axuy/view.py]

    A shallow embedding of the module [view.py]: the module constants
    ([OXY], [OYZ], [OZX], [NEIGHBORS]), the constructor [View.__init__]
    (tile stacking, grid assembly, face-anchor sets, vertex list, camera
    placement) and [View.render].

    Python integers are [Z]; array indices produced by [np.ndenumerate]
    are [nat]; Python sets are [gset]; the nested array [self.space] is a
    list of lists of lists updated by index. *)

From stdpp Require Import gmap strings list.
From Stdlib Require Import ZArith Lia.

Local Open Scope Z_scope.
#[local] Set Warnings "-clear-no-such-hyp".

(** ** Python runtime pieces used by the module *)

(** The exceptions the constructor can raise on its own inputs. *)
Inductive exn : Type :=
  | IndexError
  | ValueError.

(** Outcome of running a piece of Python: a value, a raised exception,
    or a loop that has not finished within the fuel it was given. *)
Inductive outcome (A : Type) : Type :=
  | Return (a : A)
  | Raise (e : exn)
  | Diverge.
Arguments Return {A} a.
Arguments Raise {A} e.
Arguments Diverge {A}.

Definition obind {A B} (k : A → outcome B) (m : outcome A) : outcome B :=
  match m with
  | Return a => k a
  | Raise e => Raise e
  | Diverge => Diverge
  end.

#[global] Instance outcome_ret : MRet outcome := @Return.
#[global] Instance outcome_bind : MBind outcome := @obind.

(** [seq[i]] for a Python/NumPy sequence and an integer [i]: indices
    [0 <= i < n] count from the front, [-n <= i < 0] from the back, and
    anything else raises [IndexError]. *)
Definition py_index {A} (l : list A) (i : Z) : outcome A :=
  let n := Z.of_nat (length l) in
  let j := if i <? 0 then i + n else i in
  if (0 <=? j) && (j <? n)
  then match l !! Z.to_nat j with
       | Some a => Return a
       | None => Raise IndexError
       end
  else Raise IndexError.

(** [[f(i) for i in l]] where [f] may raise: the first exception wins. *)
Fixpoint comprehension {A B} (f : A → outcome B) (l : list A) : outcome (list B) :=
  match l with
  | [] => Return []
  | a :: l' => b ← f a; bs ← comprehension f l'; Return (b :: bs)
  end.

(** ** itertools *)

(** [itertools.combinations_with_replacement(pool, r)]: the [r]-tuples of
    elements of [pool] at non-decreasing positions, in lexicographic order
    of positions. *)
Fixpoint combinations_with_replacement {A} (r : nat) (pool : list A)
    {struct r} : list (list A) :=
  match r with
  | O => [[]]
  | S r' =>
      (fix tails (p : list A) : list (list A) :=
         match p with
         | [] => []
         | x :: p' =>
             map (cons x) (combinations_with_replacement r' p) ++ tails p'
         end) pool
  end.

(** Every way of taking one element out of a list, by position. *)
Fixpoint selections {A} (l : list A) : list (A * list A) :=
  match l with
  | [] => []
  | x :: l' => (x, l') :: map (λ yr, (yr.1, x :: yr.2)) (selections l')
  end.

Fixpoint permutations_of_length {A} (n : nat) (l : list A) : list (list A) :=
  match n with
  | O => [[]]
  | S n' =>
      flat_map (λ xr, map (cons xr.1) (permutations_of_length n' xr.2))
               (selections l)
  end.

(** [itertools.permutations(t)]: all orderings of the positions of [t], in
    lexicographic order of positions; equal elements at different
    positions give repeated tuples. *)
Definition permutations {A} (l : list A) : list (list A) :=
  permutations_of_length (length l) l.

(** ** Module constants *)

(** A lattice point: a face anchor, or a vertex of the mesh.  The
    templates hold the integer-valued [float32] entries 0 and 1, and every
    sum of an anchor and a template row is an integer of magnitude below
    [2^24], hence exact in [float32]. *)
Definition point : Type := Z * Z * Z.

Definition padd (p q : point) : point :=
  (p.1.1 + q.1.1, p.1.2 + q.1.2, p.2 + q.2).

Definition OXY : list point :=
  [(0, 0, 0); (1, 0, 0); (1, 1, 0); (1, 1, 0); (0, 1, 0); (0, 0, 0)].
Definition OYZ : list point :=
  [(0, 0, 0); (0, 1, 0); (0, 1, 1); (0, 1, 1); (0, 0, 1); (0, 0, 0)].
Definition OZX : list point :=
  [(0, 0, 0); (1, 0, 0); (1, 0, 1); (1, 0, 1); (0, 0, 1); (0, 0, 0)].

(** [NEIGHBORS = set(chain.from_iterable(map(permutations,
    combinations_with_replacement((-1, 0, 1), 3))))]. *)
Definition NEIGHBORS_chain : list (list Z) :=
  concat (map permutations (combinations_with_replacement 3 [-1; 0; 1])).

Definition NEIGHBORS : gset (list Z) := list_to_set NEIGHBORS_chain.

(** ** The occupancy array [self.space] *)

(** A 3-D array as nested rows; entries are the flags 0.0 / 1.0 of the
    [float64] array, kept as booleans. *)
Abbreviation grid := (list (list (list bool))).

(** [np.zeros([12, 12, 9])]. *)
Definition np_zeros : grid := replicate 12 (replicate 12 (replicate 9 false)).

(** [g[x][y][z] = 1] for indices already known to be natural numbers. *)
Definition grid_set (g : grid) (x y z : nat) : grid :=
  alter (alter (<[z := true]>) y) x g.

(** [g[x][y][z]] read at natural-number indices. *)
Definition grid_get (g : grid) (x y z : nat) : option bool :=
  plane ← g !! x; row ← plane !! y; row !! z.

(** [g[x][y][z]] read at arbitrary Python integers. *)
Definition grid_index (g : grid) (x y z : Z) : outcome bool :=
  plane ← py_index g x; row ← py_index plane y; py_index row z.

(** ** Tile stacking: [np.stack([SPACE[i] for i in mapid]).reshape(4, 4, 3, 3, 3, 3)] *)

(** [SPACE] is the array loaded from [map.npy], which is not part of the
    sources: it is taken as a list of tiles, each tile being the flat
    (C-order) contents of [SPACE[i]]. *)
Abbreviation tile_library := (list (list bool)).

(** The reshaped array is kept flat; [np.stack] refuses an empty list and
    [reshape] refuses any total size other than 4*4*3*3*3*3. *)
Definition stack_reshape (SPACE : tile_library) (mapid : list Z)
    : outcome (list bool) :=
  tiles ← comprehension (py_index SPACE) mapid;
  match tiles with
  | [] => Raise ValueError
  | _ =>
      let flat := concat tiles in
      if decide (length flat = 1296%nat) then Return flat else Raise ValueError
  end.

(** A multi-index of the reshaped array. *)
Definition index6 : Type := nat * nat * nat * nat * nat * nat.

(** The multi-indices of an array of shape (4, 4, 3, 3, 3, 3) in C order,
    last index fastest. *)
Definition ndindex : list index6 :=
  a ← seq 0 4; b ← seq 0 4; c ← seq 0 3;
  d ← seq 0 3; e ← seq 0 3; f ← seq 0 3;
  [(a, b, c, d, e, f)].

(** [np.ndenumerate(space)]. *)
Definition ndenumerate (flat : list bool) : list (index6 * bool) :=
  zip ndindex flat.

(** ** Face-anchor sets and grid assembly (the [ndenumerate] loop) *)

(** The three sets [oxy], [oyz], [ozx]. *)
Record faces : Type := Faces {
  oxy : gset point;
  oyz : gset point;
  ozx : gset point
}.

Definition no_faces : faces := Faces ∅ ∅ ∅.

(** The coordinates derived from one multi-index: the cell [(x, y, z)]
    and its wrapped next corner [(i, j, k)]. *)
Definition cell_of (ix : index6) : nat * nat * nat :=
  let '(a, b, c, d, e, f) := ix in
  (a * 3 + d, b * 3 + e, c * 3 + f)%nat.

Definition next_corner (xyz : nat * nat * nat) : nat * nat * nat :=
  let '(x, y, z) := xyz in
  ((x + 1) mod 12, (y + 1) mod 12, (z + 1) mod 9)%nat.

(** Body of [for tx, ty, tz in NEIGHBORS].  Every element of [NEIGHBORS]
    is a 3-tuple (lemma [NEIGHBORS_tuples]), so the unpacking succeeds and
    the last branch is never taken. *)
Definition visit_neighbor (xyz ijk : nat * nat * nat) (fs : faces)
    (t : list Z) : faces :=
  let '(x, y, z) := xyz in
  let '(i, j, k) := ijk in
  match t with
  | [tx; ty; tz] =>
      let '(xt, yt, zt) := (Z.of_nat x + tx * 12, Z.of_nat y + ty * 12,
                            Z.of_nat z + tz * 9) in
      let '(it, jt, kt) := (Z.of_nat i + tx * 12, Z.of_nat j + ty * 12,
                            Z.of_nat k + tz * 9) in
      Faces ({[(xt, yt, zt)]} ∪ {[(xt, yt, kt)]} ∪ oxy fs)
            ({[(xt, yt, zt)]} ∪ {[(it, yt, zt)]} ∪ oyz fs)
            ({[(xt, yt, zt)]} ∪ {[(xt, jt, zt)]} ∪ ozx fs)
  | _ => fs
  end.

Section Construction.

(** The order in which a Python [set] is traversed: some enumeration of
    its elements, each once. *)
Context (iter : ∀ `{Countable A}, gset A → list A).

(** Body of [for (a, b, c, d, e, f), occupied in np.ndenumerate(space)]. *)
Definition visit_cell (st : faces * grid) (entry : index6 * bool)
    : faces * grid :=
  let '(ix, occupied) := entry in
  if occupied then
    let xyz := cell_of ix in
    let ijk := next_corner xyz in
    let fs := foldl (visit_neighbor xyz ijk) st.1 (iter _ _ _ NEIGHBORS) in
    let '(x, y, z) := xyz in
    (fs, grid_set st.2 x y z)
  else st.

(** Lines 66-78 of [View.__init__] on the stacked, reshaped tiles. *)
Definition build (flat : list bool) : faces * grid :=
  foldl visit_cell (no_faces, np_zeros) (ndenumerate flat).

(** ** The vertex list *)

(** [i + j for j in T]: the six vertices of the quad anchored at [i]. *)
Definition quad (T : list point) (i : point) : list point :=
  map (padd i) T.

(** Lines 79-82: one quad per anchor, plane by plane. *)
Definition emit (fs : faces) : list point :=
  flat_map (quad OXY) (iter _ _ _ (oxy fs))
  ++ flat_map (quad OYZ) (iter _ _ _ (oyz fs))
  ++ flat_map (quad OZX) (iter _ _ _ (ozx fs)).

(** [np.stack(vertices)] raises [ValueError] on an empty list; otherwise
    the buffer holds the vertices in order, three [float32] each. *)
Definition vertex_buffer (vertices : list point) : outcome (list point) :=
  match vertices with
  | [] => Raise ValueError
  | _ => Return vertices
  end.

End Construction.

(** ** Floating point, as far as camera placement uses it *)

(** A non-negative binary64 value [mantissa * 2^exponent].  Only products
    of a [random()] result with a small integer are formed, so subnormals,
    infinities and signs do not arise. *)
Record pyfloat : Type := PyFloat { mantissa : Z; exponent : Z }.

(** Round the exact value [n * 2^e] ([0 <= n]) to a 53-bit significand,
    ties to even. *)
Definition round53 (n e : Z) : pyfloat :=
  let s := Z.log2 n - 52 in
  if s <=? 0 then PyFloat n e
  else
    let q := Z.shiftr n s in
    let r := n - Z.shiftl q s in
    let half := Z.shiftl 1 (s - 1) in
    let q' := if (half <? r) || ((r =? half) && Z.odd q) then q + 1 else q in
    PyFloat q' (e + s).

(** [random.random()] returns [k / 2^53] for a 53-bit integer [k] taken
    from the generator. *)
Definition random (k : Z) : pyfloat := PyFloat k (-53).

(** [u * L] for a float [u] and a Python integer [L] (converted exactly). *)
Definition fmul_int (u : pyfloat) (L : Z) : pyfloat :=
  round53 (mantissa u * L) (exponent u).

(** [int(x)]: truncation toward zero. *)
Definition int_of_float (x : pyfloat) : Z :=
  if 0 <=? exponent x then mantissa x * 2 ^ exponent x
  else mantissa x ÷ 2 ^ (- exponent x).

(** ** Camera placement (lines 90-92) *)

(** [random()*12, random()*12, random()*9], the generator being the stream
    [rnd] read from position [n]. *)
Definition draw3 (rnd : nat → Z) (n : nat) : pyfloat * pyfloat * pyfloat :=
  (fmul_int (random (rnd n)) 12,
   fmul_int (random (rnd (S n))) 12,
   fmul_int (random (rnd (S (S n)))) 9).

(** The cell a candidate position is tested against. *)
Definition cell_index (p : pyfloat * pyfloat * pyfloat) : Z * Z * Z :=
  (int_of_float p.1.1, int_of_float p.1.2, int_of_float p.2).

(** Draw a candidate; while its cell is occupied, draw again.  [fuel]
    bounds the number of redraws. *)
Fixpoint place (fuel : nat) (space : grid) (rnd : nat → Z) (n : nat)
    : outcome (pyfloat * pyfloat * pyfloat) :=
  let p := draw3 rnd n in
  let '(cx, cy, cz) := cell_index p in
  occupied ← grid_index space cx cy cz;
  if (occupied : bool) then
    match fuel with
    | O => Diverge
    | S fuel' => place fuel' space rnd (n + 3)
    end
  else Return p.

(** ** The [View] object *)

(** [Picobot] (from [pico.py]) and the byte strings handed to ModernGL are
    not part of the sources and stay abstract. *)
Record View (Picobot bytes : Type) : Type := MkView {
  space : grid;
  prog : gmap string bytes;
  vao : list point;
  camera : Picobot
}.
Arguments MkView {Picobot bytes}.
Arguments space {Picobot bytes}.
Arguments prog {Picobot bytes}.
Arguments vao {Picobot bytes}.
Arguments camera {Picobot bytes}.

Section Init.

Context (iter : ∀ `{Countable A}, gset A → list A).
Context {Picobot bytes : Type}.
(** [Picobot(x, y, z, space)]. *)
Context (Picobot_new : pyfloat → pyfloat → pyfloat → grid → Picobot).
(** The uniforms of the program compiled from the two shaders, and
    [hex2f4('eeeeec').tobytes()]. *)
Context (context_program : gmap string bytes) (color : bytes).

(** [View.__init__(mapid, context)] for the tile library [SPACE], with
    the random generator at stream [rnd]. *)
Definition View_init (SPACE : tile_library) (mapid : list Z)
    (rnd : nat → Z) (fuel : nat) : outcome (View Picobot bytes) :=
  flat ← stack_reshape SPACE mapid;
  let '(fs, space) := build iter flat in
  let vertices := emit iter fs in
  let prog := <["color" := color]> context_program in
  vbo ← vertex_buffer vertices;
  p ← place fuel space rnd 0;
  Return (MkView space prog vbo (Picobot_new p.1.1 p.1.2 p.2 space)).

End Init.

(** ** Rendering *)

(** The only ModernGL primitive mode used. *)
Inductive mode : Type := TRIANGLES.

Section Render.

Context {Picobot bytes : Type}.
(** Floats, 3-vectors and 4x4 matrices of NumPy / Pyrr. *)
Context {num vec mat : Type}.
Context (fdiv : num → num → num) (near far : num).
Context (vadd : vec → vec → vec).
Context (perspective_projection : num → num → num → num → mat).
Context (look_at : vec → vec → vec → mat).
Context (mmul : mat → mat → mat).
Context (mat_tobytes : mat → bytes) (vec_tobytes : vec → bytes).
(** [camera.pos] and the rows of [camera.rotation]. *)
Context (Picobot_pos : Picobot → vec).
Context (Picobot_rotation : Picobot → vec * vec * vec).

(** What [render] can touch: the object itself and the list of draw
    calls issued to the backend. *)
Definition world : Type := View Picobot bytes * list mode.

Definition action (A : Type) : Type := world → A * world.

Definition aret {A} (a : A) : action A := λ w, (a, w).
Definition abind {A B} (m : action A) (k : A → action B) : action B :=
  λ w, let '(a, w') := m w in k a w'.

Definition get_pos : action vec := λ w, (Picobot_pos (camera w.1), w).
Definition get_right : action vec :=
  λ w, ((Picobot_rotation (camera w.1)).1.1, w).
Definition get_upward : action vec :=
  λ w, ((Picobot_rotation (camera w.1)).1.2, w).
Definition get_forward : action vec :=
  λ w, ((Picobot_rotation (camera w.1)).2, w).

(** [self.prog[name].write(data)]. *)
Definition prog_write (name : string) (data : bytes) : action unit :=
  λ w, (tt, (MkView (space w.1) (<[name := data]> (prog w.1)) (vao w.1)
                    (camera w.1), w.2)).

(** [self.vao.render(m)]. *)
Definition vao_render (m : mode) : action unit :=
  λ w, (tt, (w.1, w.2 ++ [m])).

(** [View.render(width, height, fov)]. *)
Definition render (width height fov : num) : action unit :=
  let proj := perspective_projection fov (fdiv width height) near far in
  abind get_pos (λ pos,
  abind get_pos (λ pos',
  abind get_forward (λ forward,
  abind get_upward (λ upward,
  let look := look_at pos (vadd pos' forward) upward in
  abind (prog_write "mvp" (mat_tobytes (mmul proj look))) (λ _,
  abind get_pos (λ pos'',
  abind (prog_write "eye" (vec_tobytes pos'')) (λ _,
  vao_render TRIANGLES))))))).

End Render.

(** ** Predicates used to state the properties *)

(** A 3-tuple with every component in {-1, 0, 1}. *)
Definition in_cube (t : list Z) : Prop :=
  ∃ tx ty tz, t = [tx; ty; tz] ∧ -1 ≤ tx ≤ 1 ∧ -1 ≤ ty ≤ 1 ∧ -1 ≤ tz ≤ 1.

(** The direction set read as the 26 nonzero offsets. *)
Definition moore_26 (s : gset (list Z)) : Prop :=
  size s = 26%nat ∧ ∀ t, t ∈ s ↔ in_cube t ∧ t ≠ [0; 0; 0].

(** The direction set read as all 27 offsets. *)
Definition cube_27 (s : gset (list Z)) : Prop :=
  size s = 27%nat ∧ ∀ t, t ∈ s ↔ in_cube t.

(** Translates of a coordinate into extended space. *)
Definition shift12 (x : nat) (t : Z) : Z := Z.of_nat x + t * 12.
Definition shift9 (z : nat) (t : Z) : Z := Z.of_nat z + t * 9.

(** The anchors the three planes receive for the occupied cell [(x, y, z)]
    and the direction [(tx, ty, tz)], with the wrapped next corner
    [(i, j, k) = ((x+1) mod 12, (y+1) mod 12, (z+1) mod 9)]. *)
Definition xy_anchors (x y z : nat) (tx ty tz : Z) : list point :=
  let k := ((z + 1) mod 9)%nat in
  [(shift12 x tx, shift12 y ty, shift9 z tz);
   (shift12 x tx, shift12 y ty, shift9 k tz)].

Definition yz_anchors (x y z : nat) (tx ty tz : Z) : list point :=
  let i := ((x + 1) mod 12)%nat in
  [(shift12 x tx, shift12 y ty, shift9 z tz);
   (shift12 i tx, shift12 y ty, shift9 z tz)].

Definition zx_anchors (x y z : nat) (tx ty tz : Z) : list point :=
  let j := ((y + 1) mod 12)%nat in
  [(shift12 x tx, shift12 y ty, shift9 z tz);
   (shift12 x tx, shift12 j ty, shift9 z tz)].

(** Cell [(x, y, z)] of the grid is occupied. *)
Definition occupied (g : grid) (x y z : nat) : Prop :=
  grid_get g x y z = Some true.

(** [p] is one of the anchors of some occupied cell and some direction. *)
Definition inserted (anchors : nat → nat → nat → Z → Z → Z → list point)
    (g : grid) (p : point) : Prop :=
  ∃ x y z tx ty tz,
    occupied g x y z ∧ [tx; ty; tz] ∈ NEIGHBORS ∧ p ∈ anchors x y z tx ty tz.

(** The flag at multi-index [ix] of the reshaped array is set. *)
Definition flagged (flat : list bool) (ix : index6) : Prop :=
  (ix, true) ∈ ndenumerate flat.

(** The index ranges of the reshaped array as C3 words them: three coarse
    indices below 4, three fine indices below 3. *)
Definition ranges_444_333 (l : list index6) : Prop :=
  ∀ a b c d e f : nat,
    (a, b, c, d, e, f) ∈ l ↔
    (a < 4 ∧ b < 4 ∧ c < 4 ∧ d < 3 ∧ e < 3 ∧ f < 3)%nat.

(** The index ranges the shape (4, 4, 3, 3, 3, 3) gives. *)
Definition ranges_44_3333 (l : list index6) : Prop :=
  ∀ a b c d e f : nat,
    (a, b, c, d, e, f) ∈ l ↔
    (a < 4 ∧ b < 4 ∧ c < 3 ∧ d < 3 ∧ e < 3 ∧ f < 3)%nat.

(** A 12 x 12 x 9 array. *)
Definition grid_dims (g : grid) : Prop :=
  length g = 12%nat ∧
  Forall (λ plane, length plane = 12%nat ∧
                   Forall (λ row : list bool, length row = 9%nat) plane) g.

(** What one entry of [np.ndenumerate] contributes to a plane. *)
Definition entry_anchors (anchors : nat → nat → nat → Z → Z → Z → list point)
    (entry : index6 * bool) (p : point) : Prop :=
  entry.2 = true ∧
  ∃ x y z tx ty tz,
    cell_of entry.1 = (x, y, z) ∧ [tx; ty; tz] ∈ NEIGHBORS ∧
    p ∈ anchors x y z tx ty tz.

(** Position of a multi-index in the flat (C-order) contents of an array of
    shape (4, 4, 3, 3, 3, 3). *)
Definition ravel (ix : index6) : nat :=
  let '(a, b, c, d, e, f) := ix in
  (((((a * 4 + b) * 3 + c) * 3 + d) * 3 + e) * 3 + f)%nat.

(** A traversal order for Python sets, and the requirement that it
    enumerates each element of a set once. *)
Definition set_order : Type :=
  ∀ (A : Type) (EqA : EqDecision A) (CA : Countable A), gset A → list A.

Definition enumerates (iter : set_order) : Prop :=
  ∀ (A : Type) (EqA : EqDecision A) (CA : Countable A) (s : gset A),
    iter A EqA CA s ≡ₚ elements s.

(** The random generator yields 53-bit integers. *)
Definition generator (rnd : nat → Z) : Prop := ∀ i, 0 ≤ rnd i < 2 ^ 53.

(** The [m]-th candidate position drawn from position [n] of the stream. *)
Definition candidate (rnd : nat → Z) (n m : nat) : pyfloat * pyfloat * pyfloat :=
  draw3 rnd (n + 3 * m).

(** The cell of a candidate lies inside the 12 x 12 x 9 array. *)
Definition in_bounds (p : pyfloat * pyfloat * pyfloat) : Prop :=
  let '(cx, cy, cz) := cell_index p in
  0 ≤ cx < 12 ∧ 0 ≤ cy < 12 ∧ 0 ≤ cz < 9.

(** The flag of the cell a candidate falls into. *)
Definition cell_flag (g : grid) (p : pyfloat * pyfloat * pyfloat)
    : option bool :=
  let '(cx, cy, cz) := cell_index p in
  grid_get g (Z.to_nat cx) (Z.to_nat cy) (Z.to_nat cz).

(** The identifier [i] resolves to a tile of the library. *)
Definition resolves (SPACE : tile_library) (i : Z) : Prop :=
  ∃ t, py_index SPACE i = Return t.

(** Construction finished and bound a vertex buffer without any face. *)
Definition builds_empty_buffer {Picobot bytes : Type}
    (out : outcome (View Picobot bytes)) : Prop :=
  ∃ v, out = Return v ∧ vao v = [].

(** ** Sample inputs *)

(** Traversal of a set in the order of [elements]. *)
Definition iter_elements (A : Type) (EqA : EqDecision A) (CA : Countable A)
    (s : gset A) : list A :=
  elements s.

(** A library of three tiles: an empty one, one with its first cell
    occupied, and a full one. *)
Definition sample_SPACE : tile_library :=
  [replicate 81 false; true :: replicate 80 false; replicate 81 true].

(** Sixteen copies of the empty tile, but for the first, which is the
    one-cell tile. *)
Definition sample_mapid : list Z := 1 :: replicate 15 0.

Definition sample_flat : list bool := true :: replicate 1295 false.

(** A generator stuck at one half: every candidate is (6.0, 6.0, 4.5). *)
Definition sample_rnd : nat → Z := λ _, 2 ^ 52.

(** A stand-in camera that records its position, a backend with no
    uniform data, and the object these give on the sample inputs. *)
Definition sample_Picobot_new (x y z : pyfloat) (_ : grid)
    : pyfloat * pyfloat * pyfloat :=
  (x, y, z).

Definition sample_View : View (pyfloat * pyfloat * pyfloat) unit :=
  let b := build iter_elements sample_flat in
  MkView b.2 (<["color" := tt]> ∅) (emit iter_elements b.1)
         (draw3 sample_rnd 0).

(** Sixteen copies of the empty tile. *)
Definition empty_mapid : list Z := replicate 16 0.

(** ** Where a cell comes from *)

(** The multi-index whose flag lands in cell [(x, y, z)]. *)
Definition index_of_cell (x y z : nat) : index6 :=
  (x / 3, y / 3, z / 3, x mod 3, y mod 3, z mod 3)%nat.

(** With tiles of 81 flags: the position in [mapid] of the tile that
    supplies cell [(x, y, z)], and the flat position of the cell's flag
    inside that tile. *)
Definition tile_slot (x y : nat) : nat := (x / 3 * 4 + y / 3)%nat.

Definition tile_offset (x y z : nat) : nat :=
  (((z / 3 * 3 + x mod 3) * 3 + y mod 3) * 3 + z mod 3)%nat.

(** ** Generators for particular candidates *)

(** The least 53-bit integer [k] with [k / 2^53 * L >= j]. *)
Definition sample_for (L j : Z) : Z := (j * 2 ^ 53 + L - 1) / L.

(** A generator that yields [k1], [k2], and then [k3] for ever. *)
Definition stream3 (k1 k2 k3 : Z) : nat → Z :=
  λ i, match i with
       | O => k1
       | S O => k2
       | _ => k3
       end.

(** ** Copies of the map *)

(** A point of the base copy of the map, [0,12) x [0,12) x [0,9). *)
Definition in_base (p : point) : Prop :=
  0 ≤ p.1.1 < 12 ∧ 0 ≤ p.1.2 < 12 ∧ 0 ≤ p.2 < 9.

#[global] Instance in_base_dec (p : point) : Decision (in_base p).
Proof. unfold in_base. apply _. Defined.

(** The point [p] moved by [t] whole map lengths along each axis. *)
Definition copy (t : Z * Z * Z) (p : point) : point :=
  (p.1.1 + t.1.1 * 12, p.1.2 + t.1.2 * 12, p.2 + t.2 * 9).

(** The 27 offsets of {-1,0,1}^3 as triples. *)
Definition offsets : list (Z * Z * Z) :=
  tx ← [-1; 0; 1]; ty ← [-1; 0; 1]; tz ← [-1; 0; 1]; [(tx, ty, tz)].

(** The three anchor functions: a direction moves the anchors of the zero
    direction by whole map lengths, and those lie in the base copy. *)
Definition periodic (anchors : nat → nat → nat → Z → Z → Z → list point)
    : Prop :=
  (∀ x y z tx ty tz,
     anchors x y z tx ty tz = copy (tx, ty, tz) <$> anchors x y z 0 0 0)
  ∧ (∀ x y z q, (x < 12)%nat → (y < 12)%nat → (z < 9)%nat →
                q ∈ anchors x y z 0 0 0 → in_base q).

(** * Properties *)

(** ** The direction set *)

Lemma NEIGHBORS_chain_in_cube : Forall in_cube NEIGHBORS_chain.
Proof.
  unfold NEIGHBORS_chain; cbn.
  repeat (apply Forall_cons; split;
          [by eexists _, _, _; split; [reflexivity | lia] |]).
  apply Forall_nil_2.
Qed.

Lemma NEIGHBORS_elem (t : list Z) : t ∈ NEIGHBORS ↔ in_cube t.
Proof.
  unfold NEIGHBORS. rewrite elem_of_list_to_set. split.
  - intros Ht. by eapply Forall_forall in Ht; [| apply NEIGHBORS_chain_in_cube].
  - intros (tx & ty & tz & -> & Hx & Hy & Hz).
    assert (tx = -1 ∨ tx = 0 ∨ tx = 1) as Ex by lia.
    assert (ty = -1 ∨ ty = 0 ∨ ty = 1) as Ey by lia.
    assert (tz = -1 ∨ tz = 0 ∨ tz = 1) as Ez by lia.
    destruct Ex as [-> | [-> | ->]], Ey as [-> | [-> | ->]],
             Ez as [-> | [-> | ->]];
      apply (bool_decide_unpack _); vm_compute; exact I.
Qed.

(** Unpacking [tx, ty, tz] never fails on an element of [NEIGHBORS]. *)
Lemma NEIGHBORS_tuples (t : list Z) : t ∈ NEIGHBORS → length t = 3%nat.
Proof. rewrite NEIGHBORS_elem. by intros (? & ? & ? & -> & _). Qed.

(** C1, as stated: the direction set would be the 26 nonzero offsets.
    It is not: the zero offset belongs to [NEIGHBORS]. *)
Lemma C1_zero_offset_included : ¬ moore_26 NEIGHBORS.
Proof.
  intros [_ H]. destruct (H [0; 0; 0]) as [H0 _].
  destruct H0 as [_ Hne]; [| by apply Hne].
  apply NEIGHBORS_elem. by eexists 0, 0, 0.
Qed.

(** C1, amended: [NEIGHBORS], generated as the set of all permutations of
    all combinations-with-replacement of (-1, 0, 1) taken 3 at a time,
    consists of exactly the 27 vectors of {-1,0,1}^3, the zero offset
    included. *)
Theorem C1_NEIGHBORS_cube_27 :
  NEIGHBORS =
    list_to_set
      (concat (map permutations (combinations_with_replacement 3 [-1; 0; 1])))
  ∧ cube_27 NEIGHBORS.
Proof.
  split; [reflexivity |]. split; [by vm_compute | apply NEIGHBORS_elem].
Qed.

(** ** The array [self.space] *)

Lemma np_zeros_dims : grid_dims np_zeros.
Proof.
  split; [reflexivity |].
  apply Forall_replicate. split; [reflexivity |].
  by apply Forall_replicate.
Qed.

Lemma grid_set_dims g x y z : grid_dims g → grid_dims (grid_set g x y z).
Proof.
  intros [Hl Hp]. split; [by unfold grid_set; rewrite length_alter |].
  rewrite Forall_lookup in Hp. apply Forall_lookup. intros n plane Hn.
  unfold grid_set in Hn. rewrite list_lookup_alter in Hn.
  case_decide as Hx; [subst n |]; [| by eapply Hp].
  destruct (g !! x) as [pl |] eqn:Hg; simplify_eq/=.
  destruct (Hp _ _ Hg) as [Hpl Hr]. split; [by rewrite length_alter |].
  rewrite Forall_lookup in Hr. apply Forall_lookup. intros m row Hm.
  rewrite list_lookup_alter in Hm.
  case_decide as Hy; [subst m |]; [| by eapply Hr].
  destruct (pl !! y) as [r |] eqn:Hpy; simplify_eq/=.
  rewrite length_insert. by eapply Hr.
Qed.

Lemma grid_dims_get g x y z :
  grid_dims g → (x < 12)%nat → (y < 12)%nat → (z < 9)%nat →
  is_Some (grid_get g x y z).
Proof.
  intros [Hl Hp] Hx Hy Hz. unfold grid_get.
  destruct (lookup_lt_is_Some_2 g x) as [pl Hpl]; [lia |].
  rewrite Hpl; simpl.
  rewrite Forall_lookup in Hp. destruct (Hp _ _ Hpl) as [Hlp Hr].
  destruct (lookup_lt_is_Some_2 pl y) as [r Hrow]; [lia |].
  rewrite Hrow; simpl.
  rewrite Forall_lookup in Hr. specialize (Hr _ _ Hrow).
  apply lookup_lt_is_Some_2. lia.
Qed.

Lemma grid_get_bounds g x y z :
  grid_dims g → is_Some (grid_get g x y z) →
  (x < 12)%nat ∧ (y < 12)%nat ∧ (z < 9)%nat.
Proof.
  intros [Hl Hp] [v Hv]. unfold grid_get in Hv.
  destruct (g !! x) as [pl |] eqn:Hpl; simplify_eq/=.
  destruct (pl !! y) as [r |] eqn:Hrow; simplify_eq/=.
  rewrite Forall_lookup in Hp. destruct (Hp _ _ Hpl) as [Hlp Hr].
  rewrite Forall_lookup in Hr. specialize (Hr _ _ Hrow).
  apply lookup_lt_Some in Hpl, Hrow, Hv. lia.
Qed.

Lemma grid_get_set_eq g x y z :
  is_Some (grid_get g x y z) → grid_get (grid_set g x y z) x y z = Some true.
Proof.
  intros [v Hv]. unfold grid_get, grid_set in *.
  rewrite list_lookup_alter_eq.
  destruct (g !! x) as [pl |] eqn:Hpl; simplify_eq/=.
  rewrite list_lookup_alter_eq.
  destruct (pl !! y) as [r |] eqn:Hrow; simplify_eq/=.
  apply list_lookup_insert_eq. by eapply lookup_lt_Some.
Qed.

Lemma grid_get_set_ne g x y z x' y' z' :
  (x, y, z) ≠ (x', y', z') →
  grid_get (grid_set g x y z) x' y' z' = grid_get g x' y' z'.
Proof.
  intros Hne. unfold grid_get, grid_set.
  rewrite list_lookup_alter. case_decide as Hx; [subst x' |]; [| done].
  destruct (g !! x) as [pl |] eqn:Hpl; simpl; [| done].
  rewrite list_lookup_alter. case_decide as Hy; [subst y' |]; [| done].
  destruct (pl !! y) as [r |] eqn:Hrow; simpl; [| done].
  apply list_lookup_insert_ne. congruence.
Qed.

(** ** Multi-indices and cells *)

Lemma ndindex_elem : ranges_44_3333 ndindex.
Proof.
  intros a b c d e f. unfold ndindex.
  repeat setoid_rewrite list_elem_of_bind.
  repeat setoid_rewrite elem_of_seq.
  setoid_rewrite list_elem_of_singleton.
  split.
  - intros (a' & (b' & (c' & (d' & (e' & (f' & Heq & Hf) & He) & Hd) & Hc)
                  & Hb) & Ha).
    simplify_eq. lia.
  - intros Hr. exists a. split; [| lia]. exists b. split; [| lia].
    exists c. split; [| lia]. exists d. split; [| lia].
    exists e. split; [| lia]. exists f. split; [done | lia].
Qed.

Lemma ndindex_length : length ndindex = 1296%nat.
Proof. reflexivity. Qed.

Lemma cell_of_bounds ix x y z :
  ix ∈ ndindex → cell_of ix = (x, y, z) →
  (x < 12)%nat ∧ (y < 12)%nat ∧ (z < 9)%nat.
Proof.
  destruct ix as [[[[[a b] c] d] e] f]. intros Hix%ndindex_elem.
  unfold cell_of. intros [= <- <- <-]. lia.
Qed.

(** Every cell of the 12 x 12 x 9 grid comes from exactly one multi-index. *)
Lemma cell_of_surj x y z :
  (x < 12)%nat → (y < 12)%nat → (z < 9)%nat →
  ∃ ix, ix ∈ ndindex ∧ cell_of ix = (x, y, z).
Proof.
  intros Hx Hy Hz.
  exists (x / 3, y / 3, z / 3, x mod 3, y mod 3, z mod 3)%nat. split.
  - apply ndindex_elem.
    pose proof (Nat.mod_upper_bound x 3). pose proof (Nat.mod_upper_bound y 3).
    pose proof (Nat.mod_upper_bound z 3).
    pose proof (Nat.Div0.div_lt_upper_bound x 3 4).
    pose proof (Nat.Div0.div_lt_upper_bound y 3 4).
    pose proof (Nat.Div0.div_lt_upper_bound z 3 3). lia.
  - unfold cell_of. f_equal; [f_equal |].
    + pose proof (Nat.div_mod_eq x 3). lia.
    + pose proof (Nat.div_mod_eq y 3). lia.
    + pose proof (Nat.div_mod_eq z 3). lia.
Qed.

Lemma cell_of_inj ix ix' :
  ix ∈ ndindex → ix' ∈ ndindex → cell_of ix = cell_of ix' → ix = ix'.
Proof.
  destruct ix as [[[[[a b] c] d] e] f], ix' as [[[[[a' b'] c'] d'] e'] f'].
  intros H%ndindex_elem H'%ndindex_elem. unfold cell_of.
  intros [= Hx Hy Hz].
  assert (a = a' ∧ d = d') as [-> ->] by lia.
  assert (b = b' ∧ e = e') as [-> ->] by lia.
  assert (c = c' ∧ f = f') as [-> ->] by lia.
  done.
Qed.

Lemma ndenumerate_index flat ix v :
  (ix, v) ∈ ndenumerate flat → ix ∈ ndindex.
Proof.
  unfold ndenumerate. intros H.
  apply elem_of_zip_l in H. done.
Qed.

(** ** The [ndenumerate] loop *)

(** The inner loop over a list of directions adds, to each plane, the two
    anchors of every 3-tuple in the list and nothing else. *)
Lemma visit_neighbors_faces x y z ts fs p :
  let fs' := foldl (visit_neighbor (x, y, z) (next_corner (x, y, z))) fs ts in
  (p ∈ oxy fs' ↔
     p ∈ oxy fs ∨ ∃ tx ty tz, [tx; ty; tz] ∈ ts ∧ p ∈ xy_anchors x y z tx ty tz)
  ∧ (p ∈ oyz fs' ↔
     p ∈ oyz fs ∨ ∃ tx ty tz, [tx; ty; tz] ∈ ts ∧ p ∈ yz_anchors x y z tx ty tz)
  ∧ (p ∈ ozx fs' ↔
     p ∈ ozx fs ∨ ∃ tx ty tz, [tx; ty; tz] ∈ ts ∧ p ∈ zx_anchors x y z tx ty tz).
Proof.
  revert fs. induction ts as [| t ts IH]; intros fs; simpl.
  - set_solver.
  - specialize (IH (visit_neighbor (x, y, z) (next_corner (x, y, z)) fs t)).
    destruct IH as (IHxy & IHyz & IHzx).
    rewrite IHxy, IHyz, IHzx. clear IHxy IHyz IHzx.
    unfold xy_anchors, yz_anchors, zx_anchors, shift12, shift9.
    destruct t as [| tx [| ty [| tz [| ? ?]]]]; simpl;
      set_unfold; naive_solver.
Qed.

(** A loop that only ever adds to a set: after the loop the set holds what
    it held before and what each visited entry contributes. *)
Lemma foldl_accumulates {S E} (step : S → E → S) (view : S → gset point)
    (contrib : E → point → Prop) :
  (∀ s e p, p ∈ view (step s e) ↔ p ∈ view s ∨ contrib e p) →
  ∀ l s p, p ∈ view (foldl step s l) ↔ p ∈ view s ∨ ∃ e, e ∈ l ∧ contrib e p.
Proof.
  intros Hstep l. induction l as [| e l IH]; intros s p; simpl.
  - split; [by left |]. intros [? | (e & He & _)]; [done |].
    by apply elem_of_nil in He.
  - rewrite IH, Hstep. split.
    + intros [[? | ?] | (e' & He' & ?)]; [by left | |].
      * right. exists e. split; [left | done].
      * right. exists e'. split; [by right | done].
    + intros [? | (e' & He' & ?)]; [by left; left |].
      apply elem_of_cons in He' as [-> | He']; [by left; right |].
      right. by exists e'.
Qed.

Section BuildFacts.

Context (iter : ∀ `{Countable A}, gset A → list A).
Hypothesis iter_perm :
  ∀ `{Countable A} (s : gset A), iter _ _ _ s ≡ₚ elements s.

Lemma iter_elem `{Countable A} (s : gset A) (x : A) :
  x ∈ iter _ _ _ s ↔ x ∈ s.
Proof. by rewrite iter_perm, elem_of_elements. Qed.

Lemma iter_length `{Countable A} (s : gset A) :
  length (iter _ _ _ s) = size s.
Proof. by rewrite iter_perm. Qed.

Lemma iter_NoDup `{Countable A} (s : gset A) : NoDup (iter _ _ _ s).
Proof. rewrite iter_perm. apply NoDup_elements. Qed.

(** One pass of the loop body. *)
Lemma visit_cell_faces st entry p :
  let fs' := (visit_cell iter st entry).1 in
  (p ∈ oxy fs' ↔ p ∈ oxy st.1 ∨ entry_anchors xy_anchors entry p)
  ∧ (p ∈ oyz fs' ↔ p ∈ oyz st.1 ∨ entry_anchors yz_anchors entry p)
  ∧ (p ∈ ozx fs' ↔ p ∈ ozx st.1 ∨ entry_anchors zx_anchors entry p).
Proof.
  destruct entry as [ix v]. unfold entry_anchors, visit_cell. simpl.
  destruct v.
  - destruct (cell_of ix) as [[x y] z] eqn:Hc. simpl.
    pose proof (visit_neighbors_faces x y z (iter _ _ _ NEIGHBORS)
                  st.1 p) as (Hxy & Hyz & Hzx).
    simpl in Hxy, Hyz, Hzx. rewrite Hxy, Hyz, Hzx.
    setoid_rewrite iter_elem.
    split_and!; (split; (intros [? | H]; [by left | right])).
    all: try (destruct H as (tx & ty & tz & Ht & Hp); split; [done |];
              by exists x, y, z, tx, ty, tz).
    all: destruct H as (_ & x' & y' & z' & tx & ty & tz & Hc' & Ht & Hp);
      simplify_eq; by exists tx, ty, tz.
  - split_and!; (split; [by left | by intros [? | [? _]]]).
Qed.

(** The anchors of each plane after the loop has run over the entries
    [l], started from the state [st]. *)
Lemma visit_cells_faces (l : list (index6 * bool)) st p :
  let fs' := (foldl (visit_cell iter) st l).1 in
  (p ∈ oxy fs' ↔
     p ∈ oxy st.1 ∨ ∃ e, e ∈ l ∧ entry_anchors xy_anchors e p)
  ∧ (p ∈ oyz fs' ↔
     p ∈ oyz st.1 ∨ ∃ e, e ∈ l ∧ entry_anchors yz_anchors e p)
  ∧ (p ∈ ozx fs' ↔
     p ∈ ozx st.1 ∨ ∃ e, e ∈ l ∧ entry_anchors zx_anchors e p).
Proof.
  simpl. split_and!.
  - apply (foldl_accumulates (visit_cell iter) (λ st, oxy st.1)).
    intros s e q. apply (visit_cell_faces s e q).
  - apply (foldl_accumulates (visit_cell iter) (λ st, oyz st.1)).
    intros s e q. apply (visit_cell_faces s e q).
  - apply (foldl_accumulates (visit_cell iter) (λ st, ozx st.1)).
    intros s e q. apply (visit_cell_faces s e q).
Qed.

End BuildFacts.

(** The multi-index enumerated at flat position [n] is the one that
    ravels to [n]. *)
Lemma ndindex_lookup_ravel n ix : ndindex !! n = Some ix → ravel ix = n.
Proof.
  assert (Forall (λ nix : nat * index6, ravel nix.2 = nix.1)
                 (zip (seq 0 1296) ndindex)) as Hall.
  { apply (bool_decide_unpack _). by vm_compute. }
  intros Hn. rewrite Forall_lookup in Hall.
  apply (Hall n (n, ix)).
  rewrite lookup_zip_with, Hn.
  rewrite lookup_seq_lt; [done |].
  apply lookup_lt_Some in Hn. by rewrite ndindex_length in Hn.
Qed.

Lemma ndindex_ravel ix : ix ∈ ndindex → ndindex !! ravel ix = Some ix.
Proof.
  intros (n & Hn)%list_elem_of_lookup.
  by rewrite (ndindex_lookup_ravel _ _ Hn).
Qed.

(** An entry of [np.ndenumerate] pairs a multi-index with the flag stored
    at its flat position. *)
Lemma ndenumerate_elem flat ix v :
  (ix, v) ∈ ndenumerate flat ↔ ix ∈ ndindex ∧ flat !! ravel ix = Some v.
Proof.
  unfold ndenumerate. rewrite list_elem_of_lookup. split.
  - intros (n & Hn). apply lookup_zip_with_Some in Hn
      as (ix' & v' & [= <- <-] & Hix & Hv).
    rewrite (ndindex_lookup_ravel _ _ Hix). split; [| done].
    by eapply list_elem_of_lookup_2.
  - intros [Hix Hv]. exists (ravel ix).
    apply lookup_zip_with_Some. exists ix, v. split_and!; [done | | done].
    by apply ndindex_ravel.
Qed.

Section GridFacts.

Context (iter : ∀ `{Countable A}, gset A → list A).

Lemma visit_cells_grid (l : list (index6 * bool)) st :
  Forall (λ e, e.1 ∈ ndindex) l → grid_dims st.2 →
  let g' := (foldl (visit_cell iter) st l).2 in
  grid_dims g' ∧
  ∀ x y z, occupied g' x y z ↔
           occupied st.2 x y z ∨ ∃ ix, (ix, true) ∈ l ∧ cell_of ix = (x, y, z).
Proof.
  revert st. induction l as [| [ix v] l IH]; intros st Hl Hd; simpl.
  - split; [done |]. intros x y z. split; [by left |].
    intros [? | (ix & Hin & _)]; [done |]. by apply elem_of_nil in Hin.
  - apply Forall_cons in Hl as [Hix Hl]. simpl in Hix.
    destruct v; simpl.
    + destruct (cell_of ix) as [[x0 y0] z0] eqn:Hc. simpl.
      destruct (cell_of_bounds _ _ _ _ Hix Hc) as (Hx & Hy & Hz).
      destruct (IH (foldl (visit_neighbor (x0, y0, z0)
                             (next_corner (x0, y0, z0)))
                      st.1 (iter _ _ _ NEIGHBORS),
                    grid_set st.2 x0 y0 z0) Hl) as [Hd' Hocc].
      { by apply grid_set_dims. }
      split; [done |]. intros x y z. rewrite Hocc. simpl. unfold occupied.
      destruct (decide ((x0, y0, z0) = (x, y, z))) as [Heq | Hne].
      * simplify_eq. rewrite grid_get_set_eq by by apply grid_dims_get.
        split; intros _; [| by left].
        right. exists ix. split; [left | done].
      * rewrite grid_get_set_ne by done.
        split; (intros [? | (ix' & Hin & Hc')]; [by left | right]).
        -- exists ix'. split; [by right | done].
        -- apply elem_of_cons in Hin as [[= ->] | Hin]; [congruence |].
           by exists ix'.
    + destruct (IH st Hl Hd) as [Hd' Hocc]. split; [done |].
      intros x y z. rewrite Hocc.
      split; (intros [? | (ix' & Hin & Hc')]; [by left | right]).
      * exists ix'. split; [by right | done].
      * apply elem_of_cons in Hin as [[=] | Hin]. by exists ix'.
Qed.

(** The grid built from the reshaped tiles has shape 12 x 12 x 9 and its
    occupied cells are the images of the flagged multi-indices. *)
Lemma build_grid flat :
  let g := (build iter flat).2 in
  grid_dims g ∧
  ∀ x y z, occupied g x y z ↔ ∃ ix, flagged flat ix ∧ cell_of ix = (x, y, z).
Proof.
  simpl. unfold build.
  destruct (visit_cells_grid (ndenumerate flat) (no_faces, np_zeros))
    as [Hd Hocc].
  - apply Forall_forall. intros [ix v] Hin. by eapply ndenumerate_index.
  - apply np_zeros_dims.
  - split; [done |]. intros x y z. rewrite Hocc. split; [| by right].
    intros [Hz | ?]; [| done]. exfalso. revert Hz. simpl.
    unfold occupied, grid_get, np_zeros.
    destruct (replicate 12 (replicate 12 (replicate 9 false)) !! x)
      as [pl |] eqn:Hpl; simpl; [| done].
    apply lookup_replicate in Hpl as [-> _].
    destruct (replicate 12 (replicate 9 false) !! y) as [r |] eqn:Hr;
      simpl; [| done].
    apply lookup_replicate in Hr as [-> _].
    intros [? _]%lookup_replicate. done.
Qed.

End GridFacts.

(** ** Tile stacking *)

Lemma py_index_Return {A} (l : list A) (i : Z) (a : A) :
  py_index l i = Return a ↔
  (- Z.of_nat (length l) ≤ i < Z.of_nat (length l)) ∧
  l !! Z.to_nat (if i <? 0 then i + Z.of_nat (length l) else i) = Some a.
Proof.
  unfold py_index.
  set (n := Z.of_nat (length l)).
  set (j := if i <? 0 then i + n else i).
  assert (0 ≤ j < n ↔ - n ≤ i < n) as Hrange.
  { subst j. destruct (Z.ltb_spec i 0); lia. }
  destruct ((0 <=? j) && (j <? n)) eqn:Hb.
  - apply andb_true_iff in Hb as [H0%Z.leb_le Hn%Z.ltb_lt].
    destruct (l !! Z.to_nat j) as [a' |] eqn:E.
    + split; [intros [= ->]; split; [lia | done] | by intros [_ [= ->]]].
    + apply lookup_ge_None in E. lia.
  - split; [done |]. intros [Hr Hl]. apply Hrange in Hr.
    apply andb_false_iff in Hb as [Hb%Z.leb_gt | Hb%Z.ltb_ge]; lia.
Qed.

Lemma py_index_Raise {A} (l : list A) (i : Z) :
  ¬ (- Z.of_nat (length l) ≤ i < Z.of_nat (length l)) →
  py_index l i = Raise IndexError.
Proof.
  intros Hout. destruct (py_index l i) as [a | [] |] eqn:E; try done.
  - apply py_index_Return in E as [? _]. done.
  - unfold py_index in E.
    destruct ((0 <=? _) && _); [destruct (l !! _) |]; congruence.
  - unfold py_index in E.
    destruct ((0 <=? _) && _); [destruct (l !! _) |]; congruence.
Qed.

Lemma py_index_never_diverges {A} (l : list A) (i : Z) :
  py_index l i ≠ Diverge.
Proof.
  unfold py_index.
  destruct ((0 <=? _) && _); [| done]. by destruct (l !! _).
Qed.

Lemma comprehension_Return {A B} (f : A → outcome B) l bs :
  comprehension f l = Return bs ↔ Forall2 (λ a b, f a = Return b) l bs.
Proof.
  revert bs. induction l as [| a l IH]; intros bs; simpl.
  - split; [intros [= <-]; constructor | by intros ->%Forall2_nil_inv_l].
  - split.
    + destruct (f a) as [b | |] eqn:Hfa; simpl; try done.
      destruct (comprehension f l) as [bs' | |] eqn:Hc; simpl; try done.
      intros [= <-]. constructor; [done |]. by apply IH.
    + intros (b & bs' & Hfa & Hrest & ->)%Forall2_cons_inv_l.
      rewrite Hfa. simpl. apply IH in Hrest. by rewrite Hrest.
Qed.

(** The first identifier that does not resolve makes the comprehension
    raise [IndexError]. *)
Lemma comprehension_Raise {A} (SPACE : list A) (mapid : list Z) :
  Exists (λ i, ¬ (- Z.of_nat (length SPACE) ≤ i < Z.of_nat (length SPACE)))
         mapid →
  comprehension (py_index SPACE) mapid = Raise IndexError.
Proof.
  induction mapid as [| i mapid IH]; intros Hex.
  - by apply Exists_nil in Hex.
  - simpl. destruct (py_index SPACE i) as [a | e |] eqn:Hi; simpl.
    + apply Exists_cons in Hex as [Hbad | Hex].
      * by rewrite py_index_Raise in Hi.
      * by rewrite IH.
    + unfold py_index in Hi.
      destruct ((0 <=? _) && _); [destruct (SPACE !! _) |]; congruence.
    + by apply py_index_never_diverges in Hi.
Qed.

Lemma concat_length_uniform {A} (n : nat) (ls : list (list A)) :
  Forall (λ t, length t = n) ls → length (concat ls) = (length ls * n)%nat.
Proof.
  induction 1 as [| t ls Ht _ IH]; simpl; [done |].
  rewrite length_app, IH, Ht. lia.
Qed.

(** What a successful [stack_reshape] returns. *)
Lemma stack_reshape_Return SPACE mapid flat :
  stack_reshape SPACE mapid = Return flat ↔
  ∃ tiles, Forall2 (λ i t, py_index SPACE i = Return t) mapid tiles ∧
           flat = concat tiles ∧ length flat = 1296%nat.
Proof.
  unfold stack_reshape. split.
  - destruct (comprehension (py_index SPACE) mapid) as [tiles | |] eqn:Hc;
      simpl; try done.
    apply comprehension_Return in Hc.
    destruct tiles as [| t tiles]; [done |].
    case_decide as Hlen; [| done]. intros [= <-]. by exists (t :: tiles).
  - intros (tiles & Hc & -> & Hlen). apply comprehension_Return in Hc.
    rewrite Hc. simpl. destruct tiles as [| t tiles]; [done |].
    by rewrite decide_True.
Qed.

(** With tiles of 81 flags, stacking succeeds only for 16 identifiers. *)
Lemma stack_reshape_16 SPACE mapid flat :
  Forall (λ t, length t = 81%nat) SPACE →
  stack_reshape SPACE mapid = Return flat → length mapid = 16%nat.
Proof.
  intros Htiles (tiles & Hc & -> & Hlen)%stack_reshape_Return.
  rewrite (concat_length_uniform 81) in Hlen.
  - apply Forall2_length in Hc. lia.
  - apply Forall_forall. intros t Ht.
    apply list_elem_of_lookup in Ht as [n Hn].
    destruct (Forall2_lookup_r _ _ _ _ _ Hc Hn) as (i & _ & Hi).
    apply py_index_Return in Hi as [_ Hi].
    rewrite Forall_lookup in Htiles. by eapply Htiles.
Qed.

(** ** Grid assembly and face sets of a whole run *)

Lemma iter_elements_enumerates : enumerates iter_elements.
Proof. by intros A EqA CA s. Qed.

Lemma sample_stack : stack_reshape sample_SPACE sample_mapid = Return sample_flat.
Proof. by vm_compute. Qed.

Lemma sample_tiles : Forall (λ t : list bool, length t = 81%nat) sample_SPACE.
Proof. repeat constructor. Qed.

(** The three sets after the loop, in terms of the occupied cells of the
    grid the same loop has built. *)
Lemma build_faces (iter : set_order) (flat : list bool) (p : point) :
  enumerates iter →
  let fs := (build iter flat).1 in
  let g := (build iter flat).2 in
  (p ∈ oxy fs ↔ inserted xy_anchors g p)
  ∧ (p ∈ oyz fs ↔ inserted yz_anchors g p)
  ∧ (p ∈ ozx fs ↔ inserted zx_anchors g p).
Proof.
  intros iter_perm. simpl.
  destruct (build_grid iter flat) as [_ Hocc].
  assert (∀ anchors,
    (∃ e, e ∈ ndenumerate flat ∧ entry_anchors anchors e p) ↔
    inserted anchors (build iter flat).2 p) as Hins.
  { intros anchors. unfold inserted, entry_anchors. split.
    - intros ([ix v] & Hin & Hv & x & y & z & tx & ty & tz & Hc & Ht & Hp).
      simpl in *. subst v. exists x, y, z, tx, ty, tz. split_and!; try done.
      apply Hocc. by exists ix.
    - intros (x & y & z & tx & ty & tz & Ho & Ht & Hp).
      apply Hocc in Ho as (ix & Hfl & Hc).
      exists (ix, true). split; [done |]. split; [done |].
      by exists x, y, z, tx, ty, tz. }
  destruct (visit_cells_faces iter iter_perm (ndenumerate flat)
              (no_faces, np_zeros) p) as (Hxy & Hyz & Hzx).
  unfold build. simpl in *.
  rewrite Hxy, Hyz, Hzx, !Hins. unfold build.
  split_and!; (split; [intros [H | H]; [by apply elem_of_empty in H | done]
                      | by right]).
Qed.

(** C2: for every occupied cell (x,y,z) and every direction (tx,ty,tz) of
    [NEIGHBORS], with (i,j,k) = ((x+1) mod 12, (y+1) mod 12, (z+1) mod 9),
    the XY set receives (xt,yt,zt) and (xt,yt,kt), the YZ set (xt,yt,zt)
    and (it,yt,zt), the ZX set (xt,yt,zt) and (xt,jt,zt), and the sets
    hold nothing else. *)
Theorem C2_face_anchors (iter : set_order) (flat : list bool) (p : point) :
  enumerates iter →
  let fs := (build iter flat).1 in
  let g := (build iter flat).2 in
  (p ∈ oxy fs ↔ inserted xy_anchors g p)
  ∧ (p ∈ oyz fs ↔ inserted yz_anchors g p)
  ∧ (p ∈ ozx fs ↔ inserted zx_anchors g p).
Proof. apply build_faces. Qed.

Lemma C2_face_anchors_witness :
  let fs := (build iter_elements sample_flat).1 in
  let g := (build iter_elements sample_flat).2 in
  ((0, 0, 1) ∈ oxy fs ↔ inserted xy_anchors g (0, 0, 1))
  ∧ ((0, 0, 1) ∈ oyz fs ↔ inserted yz_anchors g (0, 0, 1))
  ∧ ((0, 0, 1) ∈ ozx fs ↔ inserted zx_anchors g (0, 0, 1)).
Proof.
  apply (C2_face_anchors iter_elements sample_flat (0, 0, 1)).
  intros A EqA CA s. reflexivity.
Defined.

(** C3, as stated: the third index of the reshaped array would range over
    [0,4).  It ranges over [0,3): no multi-index has c = 3. *)
Lemma C3_third_index_below_3 : ¬ ranges_444_333 ndindex.
Proof.
  intros H. specialize (H 0 0 3 0 0 0)%nat.
  destruct H as [_ H]. apply ndindex_elem in H; lia.
Qed.

(** C3, amended: the tiles selected by the 16 identifiers of [mapid] are
    stacked and reshaped into 6 indices (a,b,c,d,e,f) with a, b ranging
    over [0,4) and c, d, e, f over [0,3); for every index combination
    whose flag is occupied exactly grid cell (a*3+d, b*3+e, c*3+f) of the
    12 x 12 x 9 grid is set, and every other cell stays empty. *)
Theorem C3_grid_assembly (iter : set_order)
    (SPACE : tile_library) (mapid : list Z) (flat : list bool) :
  Forall (λ t, length t = 81%nat) SPACE →
  stack_reshape SPACE mapid = Return flat →
  let g := (build iter flat).2 in
  (∃ tiles, length tiles = 16%nat ∧
            Forall2 (λ i t, py_index SPACE i = Return t) mapid tiles ∧
            flat = concat tiles)
  ∧ ranges_44_3333 ndindex
  ∧ (∀ ix, flagged flat ix ↔ ix ∈ ndindex ∧ flat !! ravel ix = Some true)
  ∧ grid_dims g
  ∧ (∀ x y z : nat,
       occupied g x y z ↔
       ∃ a b c d e f : nat,
         flagged flat (a, b, c, d, e, f) ∧
         x = (a * 3 + d)%nat ∧ y = (b * 3 + e)%nat ∧ z = (c * 3 + f)%nat)
  ∧ (∀ x y z : nat,
       (x < 12)%nat → (y < 12)%nat → (z < 9)%nat →
       ¬ occupied g x y z → grid_get g x y z = Some false).
Proof.
  intros Htiles Hstack. simpl.
  pose proof (stack_reshape_16 _ _ _ Htiles Hstack) as H16.
  apply stack_reshape_Return in Hstack as (tiles & Hc & -> & Hlen).
  destruct (build_grid iter (concat tiles)) as [Hd Hocc].
  split_and!.
  - exists tiles. split_and!; try done.
    apply Forall2_length in Hc. lia.
  - apply ndindex_elem.
  - intros ix. apply ndenumerate_elem.
  - done.
  - intros x y z. rewrite Hocc. split.
    + intros ([[[[[a b] c] d] e] f] & Hfl & [= <- <- <-]).
      by exists a, b, c, d, e, f.
    + intros (a & b & c & d & e & f & Hfl & -> & -> & ->).
      by exists (a, b, c, d, e, f).
  - intros x y z Hx Hy Hz Hno.
    destruct (grid_dims_get _ x y z Hd Hx Hy Hz) as [[] Hv]; [| done].
    by destruct Hno.
Qed.

Lemma C3_grid_assembly_witness :
  grid_dims (build iter_elements sample_flat).2
  ∧ grid_get (build iter_elements sample_flat).2 3 4 5 = Some false.
Proof.
  destruct (C3_grid_assembly iter_elements sample_SPACE sample_mapid
              sample_flat sample_tiles sample_stack)
    as (_ & _ & _ & Hd & Hocc & Hrest).
  split; [exact Hd |].
  apply Hrest; [lia | lia | lia |].
  intros Ho. apply Hocc in Ho as (a & b & c & d & e & f & Hfl & Hx & Hy & Hz).
  apply ndenumerate_elem in Hfl as [_ Hfl].
  assert (ravel (a, b, c, d, e, f) ≠ 0%nat) as Hne by (unfold ravel; lia).
  unfold sample_flat in Hfl. rewrite lookup_cons_ne_0 in Hfl by done.
  by apply lookup_replicate in Hfl as [? _].
Defined.

(** ** Floating-point candidates *)

(** A product [random() * L], for [L] one of the two grid lengths, is
    truncated by [int] to an index in [0, L): rounding to 53 bits never
    reaches [L]. *)
Lemma int_of_draw_bound (L k : Z) :
  L = 12 ∨ L = 9 → 0 ≤ k < 2 ^ 53 →
  0 ≤ int_of_float (fmul_int (random k) L) < L.
Proof.
  intros HL Hk. unfold fmul_int, random, round53, int_of_float. simpl.
  set (n := k * L).
  assert (0 ≤ n ≤ L * 2 ^ 53 - L) as Hn by (subst n; destruct HL; subst; lia).
  destruct (Z.leb_spec (Z.log2 n - 52) 0) as [Hs | Hs]; simpl.
  - rewrite Z.quot_div_nonneg by lia.
    split; [apply Z.div_pos; lia |].
    apply Z.div_lt_upper_bound; [lia |]. destruct HL; subst L; lia.
  - assert (0 < n) as Hpos.
    { destruct (decide (n = 0)) as [-> |]; [simpl in Hs; lia | lia]. }
    pose proof (Z.log2_spec n Hpos) as [Hlo Hhi].
    assert (Z.log2 n < 57) as Hlt.
    { apply Z.log2_lt_pow2; [done |]. destruct HL; subst L; lia. }
    assert (2 ^ 53 ≤ n) as H53.
    { etrans; [| exact Hlo]. apply Z.pow_le_mono_r; lia. }
    assert (Z.log2 n - 52 = 1 ∨ Z.log2 n - 52 = 2 ∨
            Z.log2 n - 52 = 3 ∨ Z.log2 n - 52 = 4) as Hcase by lia.
    clear Hlo Hhi Hlt Hs.
    destruct Hcase as [-> | [-> | [-> | ->]]];
      rewrite Z.shiftr_div_pow2, !Z.shiftl_mul_pow2 by lia;
      match goal with
      | |- context [n `div` ?d] =>
          pose proof (Z.div_mod n d ltac:(lia));
          pose proof (Z.mod_pos_bound n d ltac:(lia));
          generalize dependent (n `div` d); intros q Hq;
          generalize dependent (n `mod` d); intros r Hq Hr
      end;
      cbn [Z.leb Z.add Z.compare Z.opp Z.pos_sub Pos.pred_double Z.succ_double
           Z.pred_double Z.double];
      destruct ((_ <? _) || _) eqn:Hround;
      (rewrite Z.quot_div_nonneg by lia);
      (split; [apply Z.div_pos; lia |]);
      (apply Z.div_lt_upper_bound; [lia |]);
      try (destruct HL; subst L; lia).
    all: apply orb_true_iff in Hround as [Hr1%Z.ltb_lt | Hr2%andb_true_iff];
      [| destruct Hr2 as [Hr2%Z.eqb_eq _]];
      destruct HL; subst L; lia.
Qed.

(** ** Camera placement *)

Lemma py_index_nonneg {A} (l : list A) (i : Z) :
  0 ≤ i < Z.of_nat (length l) →
  ∃ a, py_index l i = Return a ∧ l !! Z.to_nat i = Some a.
Proof.
  intros Hi. destruct (lookup_lt_is_Some_2 l (Z.to_nat i)) as [a Ha]; [lia |].
  exists a. split; [| done]. apply py_index_Return.
  destruct (Z.ltb_spec i 0); [lia |]. split; [lia | done].
Qed.

(** Reading the array at in-range indices returns the stored flag. *)
Lemma grid_index_in_range g x y z :
  grid_dims g → 0 ≤ x < 12 → 0 ≤ y < 12 → 0 ≤ z < 9 →
  ∃ b, grid_index g x y z = Return b ∧
       grid_get g (Z.to_nat x) (Z.to_nat y) (Z.to_nat z) = Some b.
Proof.
  intros [Hl Hp] Hx Hy Hz. unfold grid_index, grid_get.
  destruct (py_index_nonneg g x) as (pl & -> & Hpl); [lia |].
  rewrite Hpl. simpl.
  rewrite Forall_lookup in Hp. destruct (Hp _ _ Hpl) as [Hlp Hr].
  destruct (py_index_nonneg pl y) as (r & -> & Hrow); [lia |].
  rewrite Hrow. simpl.
  rewrite Forall_lookup in Hr. specialize (Hr _ _ Hrow).
  destruct (py_index_nonneg r z) as (b & -> & Hb); [lia |].
  by exists b.
Qed.

Lemma draw3_in_bounds rnd n : generator rnd → in_bounds (draw3 rnd n).
Proof.
  intros Hg. unfold in_bounds, cell_index, draw3. simpl.
  split_and!; apply int_of_draw_bound; auto.
Qed.

(** The test of the loop condition on a candidate, in a 12 x 12 x 9 array. *)
Lemma candidate_test g rnd n :
  grid_dims g → generator rnd →
  let p := draw3 rnd n in
  ∃ b, cell_flag g p = Some b ∧
       grid_index g (cell_index p).1.1 (cell_index p).1.2 (cell_index p).2
       = Return b.
Proof.
  intros Hd Hg p. pose proof (draw3_in_bounds rnd n Hg) as Hb.
  unfold in_bounds, cell_flag in *. fold p in Hb.
  destruct (cell_index p) as [[cx cy] cz]. simpl.
  destruct Hb as (Hx & Hy & Hz).
  destruct (grid_index_in_range g cx cy cz Hd Hx Hy Hz) as (b & Hi & Hget).
  by exists b.
Qed.

Lemma place_unfold fuel g rnd n :
  grid_dims g → generator rnd →
  ∃ b, cell_flag g (draw3 rnd n) = Some b ∧
       place fuel g rnd n =
         if b then match fuel with
                   | O => Diverge
                   | S fuel' => place fuel' g rnd (n + 3)
                   end
         else Return (draw3 rnd n).
Proof.
  intros Hd Hg. destruct (candidate_test g rnd n Hd Hg) as (b & Hf & Hi).
  exists b. split; [done |].
  destruct fuel; cbn [place];
    destruct (cell_index (draw3 rnd n)) as [[cx cy] cz];
    cbn [fst snd] in Hi; rewrite Hi; done.
Qed.

(** The loop returns the first candidate whose cell is free, provided it
    comes within the fuel. *)
Lemma place_first_free fuel g rnd n m :
  grid_dims g → generator rnd → (m ≤ fuel)%nat →
  cell_flag g (candidate rnd n m) = Some false →
  (∀ m', (m' < m)%nat → cell_flag g (candidate rnd n m') = Some true) →
  place fuel g rnd n = Return (candidate rnd n m).
Proof.
  intros Hd Hg. revert n m.
  induction fuel as [| fuel IH]; intros n m Hm Hfree Hbefore.
  - assert (m = 0%nat) as -> by lia.
    destruct (place_unfold 0 g rnd n Hd Hg) as (b & Hb & ->).
    unfold candidate in *. rewrite Nat.mul_0_r, Nat.add_0_r in *.
    by simplify_eq.
  - destruct (place_unfold (S fuel) g rnd n Hd Hg) as (b & Hb & ->).
    destruct m as [| m].
    + unfold candidate in *. rewrite Nat.mul_0_r, Nat.add_0_r in *.
      by simplify_eq.
    + pose proof (Hbefore 0%nat ltac:(lia)) as H0.
      unfold candidate in H0. rewrite Nat.mul_0_r, Nat.add_0_r in H0.
      simplify_eq.
      rewrite (IH (n + 3)%nat m); [| lia | |].
      * unfold candidate. do 2 f_equal. lia.
      * unfold candidate in *. by replace (n + 3 + 3 * m)%nat
          with (n + 3 * S m)%nat by lia.
      * intros m' Hm'. specialize (Hbefore (S m') ltac:(lia)).
        unfold candidate in *. by replace (n + 3 + 3 * m')%nat
          with (n + 3 * S m')%nat by lia.
Qed.

(** Whatever the loop returns is a candidate whose cell is free, and every
    earlier candidate fell into an occupied cell. *)
Lemma place_Return fuel g rnd n p :
  grid_dims g → generator rnd →
  place fuel g rnd n = Return p →
  ∃ m, (m ≤ fuel)%nat ∧ p = candidate rnd n m ∧
       cell_flag g p = Some false ∧
       ∀ m', (m' < m)%nat → cell_flag g (candidate rnd n m') = Some true.
Proof.
  intros Hd Hg. revert n.
  induction fuel as [| fuel IH]; intros n Hp.
  - destruct (place_unfold 0 g rnd n Hd Hg) as (b & Hb & Heq).
    rewrite Heq in Hp. destruct b; [done |]. simplify_eq.
    exists 0%nat. unfold candidate. rewrite Nat.mul_0_r, Nat.add_0_r.
    split_and!; [lia | done | done | intros; lia].
  - destruct (place_unfold (S fuel) g rnd n Hd Hg) as (b & Hb & Heq).
    rewrite Heq in Hp. destruct b.
    + destruct (IH _ Hp) as (m & Hm & -> & Hfree & Hbefore).
      exists (S m). unfold candidate in *.
      replace (n + 3 * S m)%nat with (n + 3 + 3 * m)%nat by lia.
      split_and!; [lia | done | done |].
      intros [| m'] Hm'.
      * by rewrite Nat.mul_0_r, Nat.add_0_r.
      * replace (n + 3 * S m')%nat with (n + 3 + 3 * m')%nat by lia.
        apply Hbefore. lia.
    + simplify_eq. exists 0%nat. unfold candidate.
      rewrite Nat.mul_0_r, Nat.add_0_r.
      split_and!; [lia | done | done | intros; lia].
Qed.

(** The loop never raises: it returns or is still drawing. *)
Lemma place_no_Raise fuel g rnd n e :
  grid_dims g → generator rnd → place fuel g rnd n ≠ Raise e.
Proof.
  intros Hd Hg. revert n. induction fuel as [| fuel IH]; intros n.
  - destruct (place_unfold 0 g rnd n Hd Hg) as (b & Hb & ->). by destruct b.
  - destruct (place_unfold (S fuel) g rnd n Hd Hg) as (b & Hb & ->).
    destruct b; [apply IH | done].
Qed.

(** ** The constructor as a whole *)

Section InitFacts.

Context (iter : set_order) {Picobot bytes : Type}.
Context (Picobot_new : pyfloat → pyfloat → pyfloat → grid → Picobot).
Context (context_program : gmap string bytes) (color : bytes).

(** What a finished construction has done. *)
Lemma View_init_Return SPACE mapid rnd fuel (v : View Picobot bytes) :
  View_init iter Picobot_new context_program color SPACE mapid rnd fuel
    = Return v ↔
  ∃ flat p,
    stack_reshape SPACE mapid = Return flat ∧
    emit iter (build iter flat).1 ≠ [] ∧
    place fuel (build iter flat).2 rnd 0 = Return p ∧
    v = MkView (build iter flat).2 (<["color" := color]> context_program)
               (emit iter (build iter flat).1)
               (Picobot_new p.1.1 p.1.2 p.2 (build iter flat).2).
Proof.
  unfold View_init. split.
  - destruct (stack_reshape SPACE mapid) as [flat | |]; simpl; try done.
    destruct (build iter flat) as [fs g] eqn:Hb. simpl.
    destruct (emit iter fs) as [| q vs] eqn:He; simpl; [done |].
    destruct (place fuel g rnd 0) as [p | |] eqn:Hp; simpl; try done.
    intros [= <-]. exists flat, p. rewrite Hb. simpl. rewrite He.
    by split_and!.
  - intros (flat & p & -> & Hne & Hp & ->). simpl.
    destruct (build iter flat) as [fs g] eqn:Hb. simpl in *.
    destruct (emit iter fs) as [| q vs] eqn:He; [done |]. simpl.
    by rewrite Hp.
Qed.

End InitFacts.

Lemma sample_generator : generator sample_rnd.
Proof. intros i. unfold sample_rnd. lia. Qed.

Lemma sample_View_init :
  View_init iter_elements sample_Picobot_new ∅ tt sample_SPACE sample_mapid
            sample_rnd 0 = Return sample_View.
Proof.
  apply View_init_Return. exists sample_flat, (draw3 sample_rnd 0).
  split_and!; [apply sample_stack | by vm_compute | by vm_compute | done].
Qed.

(** C6: when the placement loop finishes, the camera stands at a candidate
    drawn from [0,12) x [0,12) x [0,9) whose cell (the truncated
    coordinates) is unoccupied; every candidate drawn before it fell into
    an occupied cell and was redrawn; and the loop does finish, with that
    candidate, as soon as the fuel reaches the first free one. *)
Theorem C6_camera_on_free_cell (iter : set_order) {Picobot bytes : Type}
    (Picobot_new : pyfloat → pyfloat → pyfloat → grid → Picobot)
    (context_program : gmap string bytes) (color : bytes)
    (SPACE : tile_library) (mapid : list Z) (rnd : nat → Z) (fuel : nat)
    (v : View Picobot bytes) :
  generator rnd →
  View_init iter Picobot_new context_program color SPACE mapid rnd fuel
    = Return v →
  (∃ p m,
     camera v = Picobot_new p.1.1 p.1.2 p.2 (space v) ∧
     p = candidate rnd 0 m ∧ (m ≤ fuel)%nat ∧
     in_bounds p ∧ cell_flag (space v) p = Some false ∧
     ∀ m', (m' < m)%nat → cell_flag (space v) (candidate rnd 0 m') = Some true)
  ∧ (∀ fuel' m,
       (m ≤ fuel')%nat →
       cell_flag (space v) (candidate rnd 0 m) = Some false →
       (∀ m', (m' < m)%nat →
              cell_flag (space v) (candidate rnd 0 m') = Some true) →
       place fuel' (space v) rnd 0 = Return (candidate rnd 0 m)).
Proof.
  intros Hg (flat & p & Hstack & Hne & Hp & ->)%View_init_Return. simpl.
  destruct (build_grid iter flat) as [Hd _].
  split.
  - destruct (place_Return _ _ _ _ _ Hd Hg Hp) as (m & Hm & -> & Hfree & Hb).
    exists (candidate rnd 0 m), m. split_and!; try done.
    apply draw3_in_bounds, Hg.
  - intros fuel' m Hm Hfree Hb. by apply place_first_free.
Qed.

Lemma C6_camera_on_free_cell_witness :
  ∃ p m,
    camera sample_View = sample_Picobot_new p.1.1 p.1.2 p.2 (space sample_View) ∧
    p = candidate sample_rnd 0 m ∧ (m ≤ 0)%nat ∧
    in_bounds p ∧ cell_flag (space sample_View) p = Some false ∧
    ∀ m', (m' < m)%nat →
          cell_flag (space sample_View) (candidate sample_rnd 0 m') = Some true.
Proof.
  exact (proj1 (C6_camera_on_free_cell iter_elements sample_Picobot_new ∅ tt
                  sample_SPACE sample_mapid sample_rnd 0 sample_View
                  sample_generator sample_View_init)).
Defined.

(** C10: every read of the occupancy array in the placement loop is in
    bounds.  With [random()] in [0,1), the truncated coordinates of any
    candidate lie in [0,12), [0,12) and [0,9), the read of the 12 x 12 x 9
    array returns a flag, and the loop never raises, whatever the stream
    of samples. *)
Theorem C10_placement_reads_in_bounds (iter : set_order) (flat : list bool)
    (rnd : nat → Z) (fuel n : nat) :
  generator rnd →
  let g := (build iter flat).2 in
  let p := draw3 rnd n in
  grid_dims g
  ∧ in_bounds p
  ∧ (∃ b, grid_index g (cell_index p).1.1 (cell_index p).1.2 (cell_index p).2
          = Return b)
  ∧ ∀ e, place fuel g rnd n ≠ Raise e.
Proof.
  intros Hg. simpl. destruct (build_grid iter flat) as [Hd _].
  split_and!.
  - done.
  - by apply draw3_in_bounds.
  - destruct (candidate_test _ rnd n Hd Hg) as (b & _ & Hb). by exists b.
  - intros e. by apply place_no_Raise.
Qed.

Lemma C10_placement_reads_in_bounds_witness :
  in_bounds (draw3 sample_rnd 0)
  ∧ ∀ e, place 0 (build iter_elements sample_flat).2 sample_rnd 0 ≠ Raise e.
Proof.
  destruct (C10_placement_reads_in_bounds iter_elements sample_flat
              sample_rnd 0 0 sample_generator) as (_ & Hb & _ & Hr).
  exact (conj Hb Hr).
Defined.

(** ** The vertex list *)

Lemma quad_OXY x y z :
  quad OXY (x, y, z) =
    [(x, y, z); (x + 1, y, z); (x + 1, y + 1, z);
     (x + 1, y + 1, z); (x, y + 1, z); (x, y, z)].
Proof. unfold quad, OXY, padd. simpl. repeat f_equal; lia. Qed.

Lemma quad_OYZ x y z :
  quad OYZ (x, y, z) =
    [(x, y, z); (x, y + 1, z); (x, y + 1, z + 1);
     (x, y + 1, z + 1); (x, y, z + 1); (x, y, z)].
Proof. unfold quad, OYZ, padd. simpl. repeat f_equal; lia. Qed.

Lemma quad_OZX x y z :
  quad OZX (x, y, z) =
    [(x, y, z); (x + 1, y, z); (x + 1, y, z + 1);
     (x + 1, y, z + 1); (x, y, z + 1); (x, y, z)].
Proof. unfold quad, OZX, padd. simpl. repeat f_equal; lia. Qed.

Lemma quads_length (T : list point) (l : list point) :
  length T = 6%nat → length (flat_map (quad T) l) = (6 * length l)%nat.
Proof.
  intros HT. induction l as [| i l IH]; simpl; [done |].
  rewrite length_app, IH. unfold quad. rewrite length_map, HT. lia.
Qed.

(** C4: the vertex buffer is the concatenation of the XY quads, then the
    YZ quads, then the ZX quads; each plane group holds, for each anchor
    of its set exactly once, the six vertices obtained by adding the
    anchor to the plane's template; the number of vertices is
    6 * (|XY| + |YZ| + |ZX|) and each group's count is a multiple of 6. *)
Theorem C4_vertex_buffer (iter : set_order) {Picobot bytes : Type}
    (Picobot_new : pyfloat → pyfloat → pyfloat → grid → Picobot)
    (context_program : gmap string bytes) (color : bytes)
    (SPACE : tile_library) (mapid : list Z) (rnd : nat → Z) (fuel : nat)
    (v : View Picobot bytes) :
  enumerates iter →
  View_init iter Picobot_new context_program color SPACE mapid rnd fuel
    = Return v →
  ∃ (flat : list bool) (lxy lyz lzx : list point),
    stack_reshape SPACE mapid = Return flat ∧
    let fs := (build iter flat).1 in
    (NoDup lxy ∧ ∀ p, p ∈ lxy ↔ p ∈ oxy fs)
    ∧ (NoDup lyz ∧ ∀ p, p ∈ lyz ↔ p ∈ oyz fs)
    ∧ (NoDup lzx ∧ ∀ p, p ∈ lzx ↔ p ∈ ozx fs)
    ∧ vao v = flat_map (λ i, map (padd i) OXY) lxy
              ++ flat_map (λ i, map (padd i) OYZ) lyz
              ++ flat_map (λ i, map (padd i) OZX) lzx
    ∧ length (flat_map (λ i, map (padd i) OXY) lxy) = (6 * size (oxy fs))%nat
    ∧ length (flat_map (λ i, map (padd i) OYZ) lyz) = (6 * size (oyz fs))%nat
    ∧ length (flat_map (λ i, map (padd i) OZX) lzx) = (6 * size (ozx fs))%nat
    ∧ length (vao v)
      = (6 * (size (oxy fs) + size (oyz fs) + size (ozx fs)))%nat.
Proof.
  intros Hiter (flat & p & Hstack & Hne & Hp & ->)%View_init_Return.
  set (fs := (build iter flat).1).
  exists flat, (iter _ _ _ (oxy fs)), (iter _ _ _ (oyz fs)),
         (iter _ _ _ (ozx fs)).
  split; [done |]. cbv zeta. cbn [vao]. fold fs.
  assert (∀ s : gset point, NoDup (iter _ _ _ s)) as Hnd.
  { intros s. rewrite (Hiter _ _ _ s). apply NoDup_elements. }
  assert (∀ (s : gset point) q, q ∈ iter _ _ _ s ↔ q ∈ s) as Hel.
  { intros s q. by rewrite (Hiter _ _ _ s), elem_of_elements. }
  assert (∀ (T : list point) (s : gset point), length T = 6%nat →
            length (flat_map (λ i, map (padd i) T) (iter _ _ _ s))
            = (6 * size s)%nat) as Hlen.
  { intros T s HT. rewrite (quads_length T _ HT).
    by rewrite (Hiter _ _ _ s). }
  split_and!; try done; try (by apply Hlen).
  unfold emit, quad. rewrite !length_app, !Hlen by done. lia.
Qed.

Lemma C4_vertex_buffer_witness :
  ∃ (flat : list bool) (lxy lyz lzx : list point),
    stack_reshape sample_SPACE sample_mapid = Return flat ∧
    let fs := (build iter_elements flat).1 in
    (NoDup lxy ∧ ∀ p, p ∈ lxy ↔ p ∈ oxy fs)
    ∧ (NoDup lyz ∧ ∀ p, p ∈ lyz ↔ p ∈ oyz fs)
    ∧ (NoDup lzx ∧ ∀ p, p ∈ lzx ↔ p ∈ ozx fs)
    ∧ vao sample_View = flat_map (λ i, map (padd i) OXY) lxy
              ++ flat_map (λ i, map (padd i) OYZ) lyz
              ++ flat_map (λ i, map (padd i) OZX) lzx
    ∧ length (flat_map (λ i, map (padd i) OXY) lxy) = (6 * size (oxy fs))%nat
    ∧ length (flat_map (λ i, map (padd i) OYZ) lyz) = (6 * size (oyz fs))%nat
    ∧ length (flat_map (λ i, map (padd i) OZX) lzx) = (6 * size (ozx fs))%nat
    ∧ length (vao sample_View)
      = (6 * (size (oxy fs) + size (oyz fs) + size (ozx fs)))%nat.
Proof.
  exact (C4_vertex_buffer iter_elements sample_Picobot_new ∅ tt sample_SPACE
           sample_mapid sample_rnd 0 sample_View iter_elements_enumerates
           sample_View_init).
Defined.

(** ** The empty grid *)

Lemma visit_cells_unflagged (iter : set_order) (l : list (index6 * bool)) st :
  Forall (λ e, e.2 = false) l → foldl (visit_cell iter) st l = st.
Proof.
  revert st. induction l as [| [ix v] l IH]; intros st Hl; [done |].
  apply Forall_cons in Hl as [Hv Hl]. simpl in Hv. subst v. simpl.
  by apply IH.
Qed.

Lemma build_unflagged (iter : set_order) (flat : list bool) :
  Forall (λ b, b = false) flat → build iter flat = (no_faces, np_zeros).
Proof.
  intros Hf. unfold build. apply visit_cells_unflagged.
  apply Forall_forall. intros [ix v] Hin. simpl.
  unfold ndenumerate in Hin. apply elem_of_zip_r in Hin.
  rewrite Forall_forall in Hf. by apply Hf.
Qed.

Lemma emit_no_faces (iter : set_order) :
  enumerates iter → emit iter no_faces = [].
Proof.
  intros Hiter. unfold emit, no_faces. simpl.
  assert (iter point _ _ ∅ = []) as ->; [| done].
  apply Permutation_nil_r. rewrite (Hiter _ _ _ ∅). by rewrite elements_empty.
Qed.

Lemma empty_stack :
  stack_reshape sample_SPACE empty_mapid = Return (replicate 1296 false).
Proof. by vm_compute. Qed.

(** On an empty grid the constructor stops at [np.stack(vertices)]. *)
Lemma View_init_empty_grid (iter : set_order) {Picobot bytes : Type}
    (Picobot_new : pyfloat → pyfloat → pyfloat → grid → Picobot)
    (context_program : gmap string bytes) (color : bytes)
    (SPACE : tile_library) (mapid : list Z) (flat : list bool)
    (rnd : nat → Z) (fuel : nat) :
  enumerates iter →
  stack_reshape SPACE mapid = Return flat →
  Forall (λ b, b = false) flat →
  View_init iter Picobot_new context_program color SPACE mapid rnd fuel
    = Raise ValueError.
Proof.
  intros Hiter Hstack Hflat. unfold View_init. rewrite Hstack.
  cbn [mbind outcome_bind obind].
  rewrite (build_unflagged iter flat Hflat).
  by rewrite (emit_no_faces iter Hiter).
Qed.

(** C5, as stated: on an empty grid construction would finish with a
    vertex buffer of zero faces.  It does not finish: stacking the empty
    vertex list raises [ValueError]. *)
Lemma C5_empty_grid_raises :
  View_init iter_elements sample_Picobot_new ∅ tt sample_SPACE empty_mapid
            sample_rnd 0 = Raise ValueError
  ∧ ¬ builds_empty_buffer
        (View_init iter_elements sample_Picobot_new ∅ tt sample_SPACE
                   empty_mapid sample_rnd 0).
Proof.
  assert (View_init iter_elements sample_Picobot_new ∅ tt sample_SPACE
            empty_mapid sample_rnd 0 = Raise ValueError) as Heq.
  { apply (View_init_empty_grid _ _ _ _ _ _ (replicate 1296 false)).
    - apply iter_elements_enumerates.
    - apply empty_stack.
    - by apply Forall_replicate. }
  split; [done |]. rewrite Heq. by intros (v & Hv & _).
Qed.

(** C5, amended: for an empty occupancy grid (no flag of the stacked tile
    data set) all three face-anchor sets are empty, no cell of the grid
    is occupied, and the vertex list built from the sets holds zero
    faces. *)
Theorem C5_empty_grid_no_faces (iter : set_order) (flat : list bool) :
  enumerates iter →
  Forall (λ b, b = false) flat →
  let fs := (build iter flat).1 in
  oxy fs = ∅ ∧ oyz fs = ∅ ∧ ozx fs = ∅
  ∧ (∀ x y z, ¬ occupied (build iter flat).2 x y z)
  ∧ emit iter fs = [].
Proof.
  intros Hiter Hflat. cbv zeta.
  destruct (build_grid iter flat) as [_ Hocc].
  split_and!; try by rewrite (build_unflagged iter flat Hflat).
  - intros x y z. rewrite Hocc. intros (ix & Hfl & _).
    apply ndenumerate_elem in Hfl as [_ Hfl].
    apply list_elem_of_lookup_2 in Hfl.
    rewrite Forall_forall in Hflat. by apply Hflat in Hfl.
  - rewrite (build_unflagged iter flat Hflat). by apply emit_no_faces.
Qed.

Lemma C5_empty_grid_no_faces_witness :
  let fs := (build iter_elements (replicate 1296 false)).1 in
  oxy fs = ∅ ∧ oyz fs = ∅ ∧ ozx fs = ∅
  ∧ (∀ x y z,
       ¬ occupied (build iter_elements (replicate 1296 false)).2 x y z)
  ∧ emit iter_elements fs = [].
Proof.
  apply (C5_empty_grid_no_faces iter_elements (replicate 1296 false)).
  - apply iter_elements_enumerates.
  - apply Forall_replicate. reflexivity.
Defined.

(** ** Determinism *)

(** The grid does not depend on the order in which sets are traversed. *)
Lemma visit_cells_grid_order (iter1 iter2 : set_order)
    (l : list (index6 * bool)) st1 st2 :
  st1.2 = st2.2 →
  (foldl (visit_cell iter1) st1 l).2 = (foldl (visit_cell iter2) st2 l).2.
Proof.
  revert st1 st2. induction l as [| [ix v] l IH]; intros st1 st2 Hst; [done |].
  simpl. apply IH. destruct v; [| done].
  destruct (cell_of ix) as [[x y] z]. simpl. by rewrite Hst.
Qed.

Lemma faces_eq (fs1 fs2 : faces) :
  (∀ p, p ∈ oxy fs1 ↔ p ∈ oxy fs2) →
  (∀ p, p ∈ oyz fs1 ↔ p ∈ oyz fs2) →
  (∀ p, p ∈ ozx fs1 ↔ p ∈ ozx fs2) →
  fs1 = fs2.
Proof.
  destruct fs1, fs2. simpl. intros Hxy Hyz Hzx.
  f_equal; by apply set_eq.
Qed.

Lemma quads_order (iter1 iter2 : set_order) (T : list point) (s : gset point) :
  enumerates iter1 → enumerates iter2 →
  quad T <$> iter1 _ _ _ s ≡ₚ quad T <$> iter2 _ _ _ s.
Proof. intros H1 H2. by rewrite (H1 _ _ _ s), (H2 _ _ _ s). Qed.

(** C7: two constructions from the same [mapid] and tile library give the
    same 12 x 12 x 9 occupancy array, and two constructions over the same
    occupancy give the same three sets of anchors and, plane by plane, the
    same collection of quads up to their order, whatever order each run
    traverses its sets in. *)
Theorem C7_deterministic (iter1 iter2 : set_order) (SPACE : tile_library)
    (mapid : list Z) (flat1 flat2 : list bool) :
  enumerates iter1 → enumerates iter2 →
  stack_reshape SPACE mapid = Return flat1 →
  stack_reshape SPACE mapid = Return flat2 →
  (build iter1 flat1).2 = (build iter2 flat2).2
  ∧ ∀ flat flat' : list bool,
      (build iter1 flat).2 = (build iter2 flat').2 →
      let fs := (build iter1 flat).1 in
      let fs' := (build iter2 flat').1 in
      fs = fs'
      ∧ quad OXY <$> iter1 _ _ _ (oxy fs) ≡ₚ quad OXY <$> iter2 _ _ _ (oxy fs')
      ∧ quad OYZ <$> iter1 _ _ _ (oyz fs) ≡ₚ quad OYZ <$> iter2 _ _ _ (oyz fs')
      ∧ quad OZX <$> iter1 _ _ _ (ozx fs) ≡ₚ quad OZX <$> iter2 _ _ _ (ozx fs').
Proof.
  intros H1 H2 Hs1 Hs2. split.
  - rewrite Hs1 in Hs2. injection Hs2 as <-.
    unfold build. by apply visit_cells_grid_order.
  - intros flat flat' Hg. cbv zeta.
    assert ((build iter1 flat).1 = (build iter2 flat').1) as Hfs.
    { apply faces_eq; intros p;
        destruct (build_faces iter1 flat p H1) as (Hxy & Hyz & Hzx);
        destruct (build_faces iter2 flat' p H2) as (Hxy' & Hyz' & Hzx');
        rewrite ?Hxy, ?Hyz, ?Hzx, ?Hxy', ?Hyz', ?Hzx', Hg; done. }
    rewrite <- Hfs. split_and!; [done | | |]; by apply quads_order.
Qed.

Lemma C7_deterministic_witness :
  (build iter_elements sample_flat).2 = (build iter_elements sample_flat).2
  ∧ ∀ flat flat' : list bool,
      (build iter_elements flat).2 = (build iter_elements flat').2 →
      let fs := (build iter_elements flat).1 in
      let fs' := (build iter_elements flat').1 in
      fs = fs'
      ∧ quad OXY <$> iter_elements _ _ _ (oxy fs)
          ≡ₚ quad OXY <$> iter_elements _ _ _ (oxy fs')
      ∧ quad OYZ <$> iter_elements _ _ _ (oyz fs)
          ≡ₚ quad OYZ <$> iter_elements _ _ _ (oyz fs')
      ∧ quad OZX <$> iter_elements _ _ _ (ozx fs)
          ≡ₚ quad OZX <$> iter_elements _ _ _ (ozx fs').
Proof.
  exact (C7_deterministic iter_elements iter_elements sample_SPACE sample_mapid
           sample_flat sample_flat iter_elements_enumerates
           iter_elements_enumerates sample_stack sample_stack).
Defined.

(** ** Malformed [mapid] *)

Lemma resolves_range (SPACE : tile_library) (i : Z) :
  resolves SPACE i ↔ - Z.of_nat (length SPACE) ≤ i < Z.of_nat (length SPACE).
Proof.
  unfold resolves. split.
  - intros (t & Ht). by apply py_index_Return in Ht as [? _].
  - intros Hr.
    destruct (lookup_lt_is_Some_2 SPACE
                (Z.to_nat (if i <? 0 then i + Z.of_nat (length SPACE) else i)))
      as [t Ht].
    { destruct (Z.ltb_spec i 0); lia. }
    exists t. by apply py_index_Return.
Qed.

Lemma comprehension_resolved (SPACE : tile_library) (mapid : list Z) :
  Forall (resolves SPACE) mapid →
  ∃ tiles, comprehension (py_index SPACE) mapid = Return tiles ∧
           length tiles = length mapid ∧ Forall (λ t, t ∈ SPACE) tiles.
Proof.
  induction 1 as [| i mapid (t & Ht) _ (tiles & Hc & Hlen & Hin)].
  - by exists [].
  - exists (t :: tiles). simpl. rewrite Ht. simpl. rewrite Hc. simpl.
    split_and!; [done | by rewrite Hlen |].
    constructor; [| done].
    apply py_index_Return in Ht as [_ Ht]. by eapply list_elem_of_lookup_2.
Qed.

(** Identifiers that all resolve but are not 16 in number make [np.stack]
    or [reshape] raise. *)
Lemma stack_reshape_wrong_length (SPACE : tile_library) (mapid : list Z) :
  Forall (λ t, length t = 81%nat) SPACE →
  Forall (resolves SPACE) mapid → length mapid ≠ 16%nat →
  stack_reshape SPACE mapid = Raise ValueError.
Proof.
  intros Htiles Hres Hlen.
  destruct (comprehension_resolved _ _ Hres) as (tiles & Hc & Hl & Hin).
  unfold stack_reshape. rewrite Hc. simpl.
  destruct tiles as [| t tiles]; [done |].
  rewrite decide_False; [done |].
  rewrite (concat_length_uniform 81).
  - rewrite Hl. lia.
  - eapply Forall_impl; [exact Hin |]. intros t' Ht'. simpl in Ht'.
    rewrite Forall_forall in Htiles. by apply Htiles.
Qed.

Lemma stack_reshape_unresolved (SPACE : tile_library) (mapid : list Z) :
  Exists (λ i, ¬ resolves SPACE i) mapid →
  stack_reshape SPACE mapid = Raise IndexError.
Proof.
  intros Hex. unfold stack_reshape. rewrite comprehension_Raise; [done |].
  eapply Exists_impl; [exact Hex |]. intros i Hi. simpl in *.
  by rewrite <- resolves_range.
Qed.

(** C8: if [mapid] does not have 16 identifiers, or holds an identifier
    that does not resolve to a tile of the library, construction raises
    an error instead of building a grid: [IndexError] when an identifier
    does not resolve, [ValueError] otherwise. *)
Theorem C8_malformed_mapid_raises (iter : set_order) {Picobot bytes : Type}
    (Picobot_new : pyfloat → pyfloat → pyfloat → grid → Picobot)
    (context_program : gmap string bytes) (color : bytes)
    (SPACE : tile_library) (mapid : list Z) (rnd : nat → Z) (fuel : nat) :
  Forall (λ t, length t = 81%nat) SPACE →
  length mapid ≠ 16%nat ∨ Exists (λ i, ¬ resolves SPACE i) mapid →
  ∃ e, View_init iter Picobot_new context_program color SPACE mapid rnd fuel
         = Raise e
       ∧ (e = IndexError ↔ Exists (λ i, ¬ resolves SPACE i) mapid).
Proof.
  intros Htiles Hbad. unfold View_init.
  destruct (decide (Exists (λ i, ¬ (- Z.of_nat (length SPACE) ≤ i
                                    < Z.of_nat (length SPACE))) mapid))
    as [Hex | Hall].
  - assert (Exists (λ i, ¬ resolves SPACE i) mapid) as Hex'.
    { eapply Exists_impl; [exact Hex |]. intros i Hi. simpl in *.
      by rewrite resolves_range. }
    exists IndexError. by rewrite stack_reshape_unresolved.
  - apply not_Exists_Forall in Hall; [| apply _].
    assert (Forall (resolves SPACE) mapid) as Hres.
    { eapply Forall_impl; [exact Hall |]. intros i Hi. simpl in Hi.
      apply resolves_range. by apply dec_stable. }
    assert (¬ Exists (λ i, ¬ resolves SPACE i) mapid) as Hnone.
    { intros Hex. apply Exists_exists in Hex as (i & Hin & Hi).
      rewrite Forall_forall in Hres. by apply Hi, Hres. }
    destruct Hbad as [Hlen | Hex]; [| done].
    exists ValueError. rewrite stack_reshape_wrong_length by done.
    split; [done |]. split; [done | by intros ?].
Qed.

Lemma C8_malformed_mapid_raises_witness :
  ∃ e, View_init iter_elements sample_Picobot_new ∅ tt sample_SPACE [0; 1]
                 sample_rnd 0 = Raise e
       ∧ (e = IndexError ↔ Exists (λ i, ¬ resolves sample_SPACE i) [0; 1]).
Proof.
  apply (C8_malformed_mapid_raises iter_elements sample_Picobot_new ∅ tt
           sample_SPACE [0; 1] sample_rnd 0 sample_tiles).
  left. simpl. lia.
Defined.

(** ** Rendering *)

(** C9: [render] leaves the occupancy grid, the camera and the vertex
    buffer of the object as they were; it reads the camera position and
    orientation, writes the two uniforms [mvp] and [eye] derived from
    them, and issues one draw call. *)
Theorem C9_render_frame {Picobot bytes num vec mat : Type}
    (fdiv : num → num → num) (near far : num) (vadd : vec → vec → vec)
    (perspective_projection : num → num → num → num → mat)
    (look_at : vec → vec → vec → mat) (mmul : mat → mat → mat)
    (mat_tobytes : mat → bytes) (vec_tobytes : vec → bytes)
    (Picobot_pos : Picobot → vec)
    (Picobot_rotation : Picobot → vec * vec * vec)
    (v : View Picobot bytes) (draws : list mode) (width height fov : num) :
  let w' := (render fdiv near far vadd perspective_projection look_at mmul
                    mat_tobytes vec_tobytes Picobot_pos Picobot_rotation
                    width height fov (v, draws)).2 in
  let pos := Picobot_pos (camera v) in
  let forward := (Picobot_rotation (camera v)).2 in
  let upward := (Picobot_rotation (camera v)).1.2 in
  let proj := perspective_projection fov (fdiv width height) near far in
  let look := look_at pos (vadd pos forward) upward in
  space w'.1 = space v
  ∧ camera w'.1 = camera v
  ∧ vao w'.1 = vao v
  ∧ prog w'.1 = <["eye" := vec_tobytes pos]>
                  (<["mvp" := mat_tobytes (mmul proj look)]> (prog v))
  ∧ w'.2 = draws ++ [TRIANGLES].
Proof. by cbv zeta. Qed.

(** * Further properties of the constructor *)

(** ** From tiles to cells *)

Lemma index_of_cell_spec (x y z : nat) :
  (x < 12)%nat → (y < 12)%nat → (z < 9)%nat →
  index_of_cell x y z ∈ ndindex ∧ cell_of (index_of_cell x y z) = (x, y, z).
Proof.
  intros Hx Hy Hz. unfold index_of_cell. split.
  - apply ndindex_elem.
    pose proof (Nat.mod_upper_bound x 3). pose proof (Nat.mod_upper_bound y 3).
    pose proof (Nat.mod_upper_bound z 3).
    pose proof (Nat.Div0.div_lt_upper_bound x 3 4).
    pose proof (Nat.Div0.div_lt_upper_bound y 3 4).
    pose proof (Nat.Div0.div_lt_upper_bound z 3 3). lia.
  - unfold cell_of. f_equal; [f_equal |].
    + pose proof (Nat.div_mod_eq x 3). lia.
    + pose proof (Nat.div_mod_eq y 3). lia.
    + pose proof (Nat.div_mod_eq z 3). lia.
Qed.

Lemma ravel_bound (ix : index6) : ix ∈ ndindex → (ravel ix < 1296)%nat.
Proof.
  intros Hix%ndindex_ravel. apply lookup_lt_Some in Hix.
  by rewrite ndindex_length in Hix.
Qed.

(** The flag a cell holds, read back from the reshaped array. *)
Lemma grid_cell_flag (iter : set_order) (flat : list bool)
    (x y z : nat) :
  length flat = 1296%nat →
  (x < 12)%nat → (y < 12)%nat → (z < 9)%nat →
  grid_get (build iter flat).2 x y z = flat !! ravel (index_of_cell x y z).
Proof.
  intros Hlen Hx Hy Hz.
  destruct (index_of_cell_spec x y z Hx Hy Hz) as [Hix Hcell].
  destruct (build_grid iter flat) as [Hd Hocc].
  destruct (lookup_lt_is_Some_2 flat (ravel (index_of_cell x y z)))
    as [v Hv]; [rewrite Hlen; by apply ravel_bound |].
  rewrite Hv. destruct v.
  - apply Hocc. exists (index_of_cell x y z). split; [| done].
    by apply ndenumerate_elem.
  - destruct (grid_dims_get _ x y z Hd Hx Hy Hz) as [[] Hg]; [| done].
    apply Hocc in Hg as (ix & Hfl & Hc).
    apply ndenumerate_elem in Hfl as [Hix' Hfl].
    assert (ix = index_of_cell x y z) as ->.
    { apply cell_of_inj; [done | done | congruence]. }
    congruence.
Qed.

(** X1: after stacking, cell (x, y, z) of the occupancy grid holds exactly
    the flag stored at multi-index
    (x div 3, y div 3, z div 3, x mod 3, y mod 3, z mod 3) of the reshaped
    array: grid assembly is a rearrangement of the 1296 flags, none lost
    and none invented. *)
Theorem X1_grid_cell_lookup (iter : set_order) (flat : list bool)
    (x y z : nat) :
  length flat = 1296%nat →
  (x < 12)%nat → (y < 12)%nat → (z < 9)%nat →
  grid_get (build iter flat).2 x y z = flat !! ravel (index_of_cell x y z).
Proof. apply grid_cell_flag. Qed.

Lemma X1_grid_cell_lookup_witness :
  grid_get (build iter_elements sample_flat).2 0 0 0
  = sample_flat !! ravel (index_of_cell 0 0 0).
Proof.
  apply (X1_grid_cell_lookup iter_elements sample_flat 0 0 0);
    [reflexivity | lia | lia | lia].
Defined.

Lemma concat_lookup_uniform {A} (n : nat) (ls : list (list A)) (i j : nat) :
  Forall (λ t, length t = n) ls → (j < n)%nat →
  concat ls !! (i * n + j)%nat = ls !! i ≫= (.!! j).
Proof.
  intros Hls Hj. revert i. induction Hls as [| t ls Ht _ IH]; intros i.
  - by rewrite !lookup_nil.
  - destruct i as [| i]; simpl.
    + rewrite lookup_app_l by lia. done.
    + rewrite lookup_app_r by lia.
      replace (n + i * n + j - length t)%nat with (i * n + j)%nat by lia.
      apply IH.
Qed.

Lemma stacked_tiles_uniform (SPACE : tile_library) (mapid : list Z)
    (tiles : list (list bool)) :
  Forall (λ t, length t = 81%nat) SPACE →
  Forall2 (λ i t, py_index SPACE i = Return t) mapid tiles →
  Forall (λ t, length t = 81%nat) tiles.
Proof.
  intros Htiles Hc. apply Forall_forall. intros t Ht.
  apply list_elem_of_lookup in Ht as [n Hn].
  destruct (Forall2_lookup_r _ _ _ _ _ Hc Hn) as (i & _ & Hi).
  apply py_index_Return in Hi as [_ Hi].
  rewrite Forall_lookup in Htiles. by eapply Htiles.
Qed.

(** X2: with tiles of 81 flags, cell (x, y, z) is supplied by the tile
    named at position (x div 3) * 4 + (y div 3) of [mapid]: each
    identifier fills one 3 x 3 column of the map over its whole height of
    9, and the cell's flag is the one at flat position
    ((z div 3 * 3 + x mod 3) * 3 + y mod 3) * 3 + z mod 3 of that tile. *)
Theorem X2_tile_placement (iter : set_order) (SPACE : tile_library)
    (mapid : list Z) (flat : list bool) (x y z : nat) :
  Forall (λ t, length t = 81%nat) SPACE →
  stack_reshape SPACE mapid = Return flat →
  (x < 12)%nat → (y < 12)%nat → (z < 9)%nat →
  ∃ (id : Z) (tile : list bool),
    mapid !! tile_slot x y = Some id ∧
    py_index SPACE id = Return tile ∧
    grid_get (build iter flat).2 x y z = tile !! tile_offset x y z.
Proof.
  intros Htiles Hstack Hx Hy Hz.
  pose proof (stack_reshape_16 _ _ _ Htiles Hstack) as H16.
  apply stack_reshape_Return in Hstack as (tiles & Hc & -> & Hlen).
  pose proof (stacked_tiles_uniform _ _ _ Htiles Hc) as Hu.
  rewrite (grid_cell_flag iter _ x y z Hlen Hx Hy Hz).
  assert (tile_slot x y < 16)%nat as Hslot.
  { unfold tile_slot.
    pose proof (Nat.Div0.div_lt_upper_bound x 3 4).
    pose proof (Nat.Div0.div_lt_upper_bound y 3 4). lia. }
  assert (tile_offset x y z < 81)%nat as Hoff.
  { unfold tile_offset.
    pose proof (Nat.mod_upper_bound x 3). pose proof (Nat.mod_upper_bound y 3).
    pose proof (Nat.mod_upper_bound z 3).
    pose proof (Nat.Div0.div_lt_upper_bound z 3 3). lia. }
  destruct (lookup_lt_is_Some_2 mapid (tile_slot x y)) as [id Hid]; [lia |].
  destruct (Forall2_lookup_l _ _ _ _ _ Hc Hid) as (tile & Htile & Hpy).
  exists id, tile. split_and!; [done | done |].
  replace (ravel (index_of_cell x y z))
    with (tile_slot x y * 81 + tile_offset x y z)%nat
    by (unfold ravel, index_of_cell, tile_slot, tile_offset; lia).
  rewrite (concat_lookup_uniform 81) by done. by rewrite Htile.
Qed.

Lemma X2_tile_placement_witness :
  ∃ (id : Z) (tile : list bool),
    sample_mapid !! tile_slot 4 5 = Some id ∧
    py_index sample_SPACE id = Return tile ∧
    grid_get (build iter_elements sample_flat).2 4 5 6
    = tile !! tile_offset 4 5 6.
Proof.
  apply (X2_tile_placement iter_elements sample_SPACE sample_mapid sample_flat
           4 5 6 sample_tiles sample_stack); lia.
Defined.

(** ** Which identifier lists are accepted *)

(** X3: with tiles of 81 flags, stacking and reshaping succeeds exactly
    for lists of 16 identifiers that all resolve; nothing else is
    accepted and nothing well-formed is refused. *)
Theorem X3_stack_reshape_accepts (SPACE : tile_library) (mapid : list Z) :
  Forall (λ t, length t = 81%nat) SPACE →
  (∃ flat, stack_reshape SPACE mapid = Return flat) ↔
  length mapid = 16%nat ∧ Forall (resolves SPACE) mapid.
Proof.
  intros Htiles. split.
  - intros (flat & Hflat). split; [by eapply stack_reshape_16 |].
    apply stack_reshape_Return in Hflat as (tiles & Hc & _ & _).
    apply Forall_forall. intros i Hi.
    apply list_elem_of_lookup in Hi as [n Hn].
    destruct (Forall2_lookup_l _ _ _ _ _ Hc Hn) as (t & _ & Ht).
    by exists t.
  - intros [H16 Hres].
    destruct (comprehension_resolved _ _ Hres) as (tiles & Hc & Hl & Hin).
    exists (concat tiles). apply stack_reshape_Return. exists tiles.
    split_and!; [by apply comprehension_Return | done |].
    rewrite (concat_length_uniform 81); [lia |].
    eapply Forall_impl; [exact Hin |]. intros t Ht. simpl in Ht.
    rewrite Forall_forall in Htiles. by apply Htiles.
Qed.

Lemma X3_stack_reshape_accepts_witness :
  (∃ flat, stack_reshape sample_SPACE sample_mapid = Return flat) ↔
  length sample_mapid = 16%nat ∧ Forall (resolves sample_SPACE) sample_mapid.
Proof. exact (X3_stack_reshape_accepts sample_SPACE sample_mapid sample_tiles). Defined.

Lemma py_index_wrap {A} (l : list A) (i : Z) :
  0 ≤ i < Z.of_nat (length l) →
  py_index l (i - Z.of_nat (length l)) = py_index l i.
Proof.
  intros Hi. unfold py_index.
  destruct (Z.ltb_spec (i - Z.of_nat (length l)) 0); [| lia].
  destruct (Z.ltb_spec i 0); [lia |].
  by replace (i - Z.of_nat (length l) + Z.of_nat (length l)) with i by lia.
Qed.

Lemma comprehension_ext {A B} (f g : A → outcome B) (l : list A) :
  Forall (λ a, f a = g a) l → comprehension f l = comprehension g l.
Proof.
  induction 1 as [| a l Ha _ IH]; simpl; [done |]. by rewrite Ha, IH.
Qed.

(** X4: identifiers may count from the end of the tile library: writing
    every identifier i (with 0 <= i < N, N the number of tiles) as i - N
    changes nothing, the constructor's outcome is the same. *)
Theorem X4_negative_identifiers (iter : set_order) {Picobot bytes : Type}
    (Picobot_new : pyfloat → pyfloat → pyfloat → grid → Picobot)
    (context_program : gmap string bytes) (color : bytes)
    (SPACE : tile_library) (mapid : list Z) (rnd : nat → Z) (fuel : nat) :
  Forall (λ i, 0 ≤ i < Z.of_nat (length SPACE)) mapid →
  View_init iter Picobot_new context_program color SPACE
            ((λ i, i - Z.of_nat (length SPACE)) <$> mapid) rnd fuel
  = View_init iter Picobot_new context_program color SPACE mapid rnd fuel.
Proof.
  intros Hids.
  assert (comprehension (py_index SPACE)
            ((λ i, i - Z.of_nat (length SPACE)) <$> mapid)
          = comprehension (py_index SPACE) mapid) as Hsame.
  { induction Hids as [| i mapid Hi _ IH]; [done |].
    rewrite fmap_cons. cbn [comprehension].
    by rewrite py_index_wrap, IH. }
  unfold View_init, stack_reshape. by rewrite Hsame.
Qed.

Lemma X4_negative_identifiers_witness :
  View_init iter_elements sample_Picobot_new ∅ tt sample_SPACE
            ((λ i, i - Z.of_nat (length sample_SPACE)) <$> sample_mapid)
            sample_rnd 0
  = View_init iter_elements sample_Picobot_new ∅ tt sample_SPACE sample_mapid
              sample_rnd 0.
Proof.
  apply (X4_negative_identifiers iter_elements sample_Picobot_new ∅ tt
           sample_SPACE sample_mapid sample_rnd 0).
  apply (bool_decide_unpack _). by vm_compute.
Defined.

(** ** How the constructor ends *)

Lemma emit_length (iter : set_order) (fs : faces) :
  enumerates iter →
  length (emit iter fs)
  = (6 * (size (oxy fs) + size (oyz fs) + size (ozx fs)))%nat.
Proof.
  intros Hiter. unfold emit.
  assert (∀ s : gset point, length (iter _ _ _ s) = size s) as Hlen.
  { intros s. by rewrite (Hiter _ _ _ s). }
  rewrite !length_app, !quads_length, !Hlen by done. lia.
Qed.

(** A set flag puts the low corner of its cell into the XY set. *)
Lemma flagged_anchor (iter : set_order) (flat : list bool) (ix : index6) :
  enumerates iter → flagged flat ix →
  ∃ p, p ∈ oxy (build iter flat).1.
Proof.
  intros Hiter Hfl.
  destruct (cell_of ix) as [[x y] z] eqn:Hc.
  exists (shift12 x 0, shift12 y 0, shift9 z 0).
  apply (build_faces iter flat _ Hiter).
  exists x, y, z, 0, 0, 0. split_and!.
  - apply build_grid. by exists ix.
  - apply NEIGHBORS_elem. exists 0, 0, 0. split; [done | lia].
  - unfold xy_anchors. apply elem_of_cons. by left.
Qed.

Lemma flagged_emit (iter : set_order) (flat : list bool) (ix : index6) :
  enumerates iter → flagged flat ix → emit iter (build iter flat).1 ≠ [].
Proof.
  intros Hiter Hfl Hnil.
  destruct (flagged_anchor iter flat ix Hiter Hfl) as (p & Hp).
  apply (f_equal length) in Hnil. rewrite emit_length in Hnil by done.
  assert (size (oxy (build iter flat).1) ≠ 0%nat) as Hne.
  { apply size_non_empty_iff. intros Hempty. by apply Hempty in Hp. }
  simpl in Hnil. lia.
Qed.

Lemma some_flag (flat : list bool) :
  length flat = 1296%nat → ¬ Forall (λ b, b = false) flat →
  ∃ ix, flagged flat ix.
Proof.
  intros Hlen Hnot. apply not_Forall_Exists in Hnot; [| apply _].
  apply Exists_exists in Hnot as (b & Hin & Hb).
  destruct b; [| by exfalso; apply Hb].
  apply list_elem_of_lookup in Hin as [n Hn].
  destruct (lookup_lt_is_Some_2 ndindex n) as [ix Hix].
  { rewrite ndindex_length, <- Hlen. by eapply lookup_lt_Some. }
  exists ix. apply ndenumerate_elem. split; [by eapply list_elem_of_lookup_2 |].
  by rewrite (ndindex_lookup_ravel _ _ Hix).
Qed.

(** The constructor once the tiles are stacked and some face exists. *)
Lemma View_init_after_stack (iter : set_order) {Picobot bytes : Type}
    (Picobot_new : pyfloat → pyfloat → pyfloat → grid → Picobot)
    (context_program : gmap string bytes) (color : bytes)
    (SPACE : tile_library) (mapid : list Z) (flat : list bool)
    (rnd : nat → Z) (fuel : nat) :
  stack_reshape SPACE mapid = Return flat →
  emit iter (build iter flat).1 ≠ [] →
  View_init iter Picobot_new context_program color SPACE mapid rnd fuel
  = p ← place fuel (build iter flat).2 rnd 0;
    Return (MkView (build iter flat).2 (<["color" := color]> context_program)
                   (emit iter (build iter flat).1)
                   (Picobot_new p.1.1 p.1.2 p.2 (build iter flat).2)).
Proof.
  intros Hstack Hne. unfold View_init. rewrite Hstack.
  cbn [mbind outcome_bind obind].
  destruct (build iter flat) as [fs g]. cbn [fst snd] in *.
  destruct (emit iter fs) as [| q vs]; [done |]. done.
Qed.

(** X5: once the tiles are stacked, the constructor raises if and only if
    the map is empty (no flag set); on any other map it either returns or
    is still looking for a free cell. *)
Theorem X5_raises_iff_empty (iter : set_order) {Picobot bytes : Type}
    (Picobot_new : pyfloat → pyfloat → pyfloat → grid → Picobot)
    (context_program : gmap string bytes) (color : bytes)
    (SPACE : tile_library) (mapid : list Z) (flat : list bool)
    (rnd : nat → Z) (fuel : nat) :
  enumerates iter → generator rnd →
  stack_reshape SPACE mapid = Return flat →
  (∃ e, View_init iter Picobot_new context_program color SPACE mapid rnd fuel
        = Raise e)
  ↔ Forall (λ b, b = false) flat.
Proof.
  intros Hiter Hgen Hstack. split.
  - intros (e & He).
    destruct (decide (Forall (λ b, b = false) flat)) as [| Hnot]; [done |].
    exfalso.
    pose proof Hstack as (tiles & _ & _ & Hlen)%stack_reshape_Return.
    destruct (some_flag flat Hlen Hnot) as (ix & Hfl).
    rewrite (View_init_after_stack iter _ _ _ _ _ flat) in He;
      [| done | by eapply flagged_emit].
    destruct (build_grid iter flat) as [Hd _].
    destruct (place fuel (build iter flat).2 rnd 0) as [p | e' |] eqn:Hp;
      simpl in He; try done.
    by apply place_no_Raise in Hp.
  - intros Hempty. exists ValueError. by eapply View_init_empty_grid.
Qed.

Lemma X5_raises_iff_empty_witness :
  (∃ e, View_init iter_elements sample_Picobot_new ∅ tt sample_SPACE
                  sample_mapid sample_rnd 0 = Raise e)
  ↔ Forall (λ b, b = false) sample_flat.
Proof.
  exact (X5_raises_iff_empty iter_elements sample_Picobot_new ∅ tt
           sample_SPACE sample_mapid sample_flat sample_rnd 0
           iter_elements_enumerates sample_generator sample_stack).
Defined.

(** X6: the constructor succeeds on every map with at least one flag set
    as soon as some candidate within the fuel falls on a free cell: it
    returns the object holding the assembled grid, the program with its
    colour written, the vertex list, and a camera at the first such
    candidate. *)
Theorem X6_View_init_succeeds (iter : set_order) {Picobot bytes : Type}
    (Picobot_new : pyfloat → pyfloat → pyfloat → grid → Picobot)
    (context_program : gmap string bytes) (color : bytes)
    (SPACE : tile_library) (mapid : list Z) (flat : list bool)
    (rnd : nat → Z) (fuel m : nat) (ix : index6) :
  enumerates iter → generator rnd →
  stack_reshape SPACE mapid = Return flat →
  flagged flat ix →
  (m ≤ fuel)%nat →
  cell_flag (build iter flat).2 (candidate rnd 0 m) = Some false →
  (∀ m', (m' < m)%nat →
         cell_flag (build iter flat).2 (candidate rnd 0 m') = Some true) →
  View_init iter Picobot_new context_program color SPACE mapid rnd fuel
  = Return (MkView (build iter flat).2 (<["color" := color]> context_program)
                   (emit iter (build iter flat).1)
                   (Picobot_new (candidate rnd 0 m).1.1 (candidate rnd 0 m).1.2
                                (candidate rnd 0 m).2 (build iter flat).2)).
Proof.
  intros Hiter Hgen Hstack Hfl Hm Hfree Hbefore.
  rewrite (View_init_after_stack iter _ _ _ _ _ flat);
    [| done | by eapply flagged_emit].
  destruct (build_grid iter flat) as [Hd _].
  by rewrite (place_first_free fuel _ rnd 0 m Hd Hgen Hm Hfree Hbefore).
Qed.

Lemma sample_flagged : flagged sample_flat (0, 0, 0, 0, 0, 0)%nat.
Proof. apply ndenumerate_elem. split; [by apply ndindex_elem; lia | done]. Qed.

Lemma X6_View_init_succeeds_witness :
  View_init iter_elements sample_Picobot_new ∅ tt sample_SPACE sample_mapid
            sample_rnd 0
  = Return (MkView (build iter_elements sample_flat).2 (<["color" := tt]> ∅)
              (emit iter_elements (build iter_elements sample_flat).1)
              (sample_Picobot_new (candidate sample_rnd 0 0).1.1
                 (candidate sample_rnd 0 0).1.2 (candidate sample_rnd 0 0).2
                 (build iter_elements sample_flat).2)).
Proof.
  apply (X6_View_init_succeeds iter_elements sample_Picobot_new ∅ tt
           sample_SPACE sample_mapid sample_flat sample_rnd 0 0
           (0, 0, 0, 0, 0, 0)%nat iter_elements_enumerates sample_generator
           sample_stack sample_flagged).
  - lia.
  - by vm_compute.
  - intros m' Hm'. lia.
Defined.

(** ** The placement loop at its limits *)

Lemma place_Diverge (fuel : nat) (g : grid) (rnd : nat → Z) (n : nat) :
  grid_dims g → generator rnd →
  place fuel g rnd n = Diverge ↔
  ∀ m, (m ≤ fuel)%nat → cell_flag g (candidate rnd n m) = Some true.
Proof.
  intros Hd Hg. revert n. induction fuel as [| fuel IH]; intros n.
  - destruct (place_unfold 0 g rnd n Hd Hg) as (b & Hb & ->).
    unfold candidate. split.
    + intros Hdiv m Hm. assert (m = 0%nat) as -> by lia.
      rewrite Nat.mul_0_r, Nat.add_0_r. by destruct b.
    + intros Hall. specialize (Hall 0%nat ltac:(lia)).
      rewrite Nat.mul_0_r, Nat.add_0_r in Hall. by simplify_eq.
  - destruct (place_unfold (S fuel) g rnd n Hd Hg) as (b & Hb & ->).
    unfold candidate in *. split.
    + intros Hdiv m Hm. destruct b; [| done].
      destruct m as [| m].
      * by rewrite Nat.mul_0_r, Nat.add_0_r.
      * replace (n + 3 * S m)%nat with (n + 3 + 3 * m)%nat by lia.
        apply IH; [done | lia].
    + intros Hall. pose proof (Hall 0%nat ltac:(lia)) as H0.
      rewrite Nat.mul_0_r, Nat.add_0_r in H0. simplify_eq.
      apply IH. intros m Hm. specialize (Hall (S m) ltac:(lia)).
      by replace (n + 3 * S m)%nat with (n + 3 + 3 * m)%nat in Hall by lia.
Qed.

(** X7: the placement loop is still running after [fuel] redraws exactly
    when each of the first [fuel + 1] candidates fell on an occupied
    cell; nothing else keeps it from returning. *)
Theorem X7_place_still_running (fuel : nat) (g : grid) (rnd : nat → Z)
    (n : nat) :
  grid_dims g → generator rnd →
  place fuel g rnd n = Diverge ↔
  ∀ m, (m ≤ fuel)%nat → cell_flag g (candidate rnd n m) = Some true.
Proof. apply place_Diverge. Qed.

Lemma X7_place_still_running_witness :
  place 2 np_zeros sample_rnd 0 = Diverge ↔
  ∀ m, (m ≤ 2)%nat → cell_flag np_zeros (candidate sample_rnd 0 m) = Some true.
Proof.
  exact (X7_place_still_running 2 np_zeros sample_rnd 0 np_zeros_dims
           sample_generator).
Defined.

(** X8: on a fully occupied map the constructor never returns: whatever
    the generator yields and however many redraws are allowed, the
    placement loop is still running (the loop has no iteration cap). *)
Theorem X8_full_map_never_placed (iter : set_order) {Picobot bytes : Type}
    (Picobot_new : pyfloat → pyfloat → pyfloat → grid → Picobot)
    (context_program : gmap string bytes) (color : bytes)
    (SPACE : tile_library) (mapid : list Z) (flat : list bool)
    (rnd : nat → Z) :
  enumerates iter → generator rnd →
  stack_reshape SPACE mapid = Return flat →
  Forall (λ b, b = true) flat →
  ∀ fuel,
    View_init iter Picobot_new context_program color SPACE mapid rnd fuel
    = Diverge.
Proof.
  intros Hiter Hgen Hstack Hfull fuel.
  pose proof Hstack as (tiles & _ & _ & Hlen)%stack_reshape_Return.
  assert (flagged flat (0, 0, 0, 0, 0, 0)%nat) as Hfl.
  { apply ndenumerate_elem. split; [by apply ndindex_elem; lia |].
    destruct (lookup_lt_is_Some_2 flat (ravel (0, 0, 0, 0, 0, 0)%nat))
      as [b Hb]; [rewrite Hlen; simpl; lia |].
    rewrite Hb. f_equal. rewrite Forall_forall in Hfull.
    apply Hfull. by eapply list_elem_of_lookup_2. }
  rewrite (View_init_after_stack iter _ _ _ _ _ flat);
    [| done | by eapply flagged_emit].
  destruct (build_grid iter flat) as [Hd _].
  assert (place fuel (build iter flat).2 rnd 0 = Diverge) as ->; [| done].
  apply place_Diverge; [done | done |]. intros m _.
  pose proof (draw3_in_bounds rnd (0 + 3 * m) Hgen) as Hb.
  unfold candidate, cell_flag, in_bounds in *.
  destruct (cell_index (draw3 rnd (0 + 3 * m))) as [[cx cy] cz].
  destruct Hb as (Hx & Hy & Hz).
  rewrite (grid_cell_flag iter flat) by (done || lia).
  destruct (lookup_lt_is_Some_2 flat
              (ravel (index_of_cell (Z.to_nat cx) (Z.to_nat cy) (Z.to_nat cz))))
    as [b Hb].
  { rewrite Hlen. apply ravel_bound, index_of_cell_spec; lia. }
  rewrite Hb. f_equal. rewrite Forall_forall in Hfull.
  apply Hfull. by eapply list_elem_of_lookup_2.
Qed.

Lemma full_stack :
  stack_reshape sample_SPACE (replicate 16 2) = Return (replicate 1296 true).
Proof. by vm_compute. Qed.

Lemma X8_full_map_never_placed_witness :
  View_init iter_elements sample_Picobot_new ∅ tt sample_SPACE
            (replicate 16 2) sample_rnd 1000 = Diverge.
Proof.
  apply (X8_full_map_never_placed iter_elements sample_Picobot_new ∅ tt
           sample_SPACE (replicate 16 2) (replicate 1296 true) sample_rnd
           iter_elements_enumerates sample_generator full_stack).
  by apply Forall_replicate.
Defined.

Lemma sample_for_12 (j : Z) :
  0 ≤ j < 12 →
  0 ≤ sample_for 12 j < 2 ^ 53 ∧
  int_of_float (fmul_int (random (sample_for 12 j)) 12) = j.
Proof.
  intros Hj.
  assert (j = 0 ∨ j = 1 ∨ j = 2 ∨ j = 3 ∨ j = 4 ∨ j = 5 ∨ j = 6 ∨ j = 7 ∨
          j = 8 ∨ j = 9 ∨ j = 10 ∨ j = 11) as Hcase by lia.
  repeat (destruct Hcase as [-> | Hcase]); try subst j; by vm_compute.
Qed.

Lemma sample_for_9 (j : Z) :
  0 ≤ j < 9 →
  0 ≤ sample_for 9 j < 2 ^ 53 ∧
  int_of_float (fmul_int (random (sample_for 9 j)) 9) = j.
Proof.
  intros Hj.
  assert (j = 0 ∨ j = 1 ∨ j = 2 ∨ j = 3 ∨ j = 4 ∨ j = 5 ∨ j = 6 ∨ j = 7 ∨
          j = 8) as Hcase by lia.
  repeat (destruct Hcase as [-> | Hcase]); try subst j; by vm_compute.
Qed.

(** X9: every free cell of a 12 x 12 x 9 grid is a possible start for
    the camera: some generator output makes the very first candidate fall
    into that cell, and the loop then returns it without a redraw. *)
Theorem X9_free_cell_reachable (g : grid) (x y z : nat) :
  grid_dims g → grid_get g x y z = Some false →
  ∃ rnd, generator rnd ∧
         cell_index (draw3 rnd 0) = (Z.of_nat x, Z.of_nat y, Z.of_nat z) ∧
         place 0 g rnd 0 = Return (draw3 rnd 0).
Proof.
  intros Hd Hfree.
  destruct (grid_get_bounds g x y z Hd) as (Hx & Hy & Hz); [by eexists |].
  destruct (sample_for_12 (Z.of_nat x)) as [Hkx Hix]; [lia |].
  destruct (sample_for_12 (Z.of_nat y)) as [Hky Hiy]; [lia |].
  destruct (sample_for_9 (Z.of_nat z)) as [Hkz Hiz]; [lia |].
  set (rnd := stream3 (sample_for 12 (Z.of_nat x)) (sample_for 12 (Z.of_nat y))
                      (sample_for 9 (Z.of_nat z))).
  assert (generator rnd) as Hgen.
  { intros [| [| i]]; simpl; done. }
  assert (cell_index (draw3 rnd 0)
          = (Z.of_nat x, Z.of_nat y, Z.of_nat z)) as Hcell.
  { unfold cell_index, draw3, rnd. simpl. by rewrite Hix, Hiy, Hiz. }
  exists rnd. split_and!; [done | done |].
  apply (place_first_free 0 g rnd 0 0 Hd Hgen); [lia | | intros; lia].
  unfold candidate, cell_flag. change (0 + 3 * 0)%nat with 0%nat.
  rewrite Hcell. cbv beta iota. by rewrite !Nat2Z.id.
Qed.

Lemma X9_free_cell_reachable_witness :
  ∃ rnd, generator rnd ∧
         cell_index (draw3 rnd 0) = (Z.of_nat 3, Z.of_nat 4, Z.of_nat 5) ∧
         place 0 np_zeros rnd 0 = Return (draw3 rnd 0).
Proof.
  apply (X9_free_cell_reachable np_zeros 3 4 5 np_zeros_dims). reflexivity.
Defined.

(** ** Shape of the face sets *)

(** Equality of two points, componentwise. *)
Ltac point_eq := repeat (apply pair_equal_spec; split); lia.

Lemma next_lt (n m : nat) : (0 < m)%nat → ((n + 1) mod m < m)%nat.
Proof. intros. apply Nat.mod_upper_bound. lia. Qed.

(** X10: every occupied cell of the map is closed on all six sides: the
    sets hold the XY faces at its bottom and top, the YZ faces at its two
    x-sides and the ZX faces at its two y-sides, also when the cell
    touches the seam of the torus (x = 11, y = 11 or z = 8). *)
Theorem X10_cell_closed (iter : set_order) (flat : list bool) (x y z : nat) :
  enumerates iter →
  occupied (build iter flat).2 x y z →
  let fs := (build iter flat).1 in
  let '(X, Y, Z) := (Z.of_nat x, Z.of_nat y, Z.of_nat z) in
  (X, Y, Z) ∈ oxy fs ∧ (X, Y, Z + 1) ∈ oxy fs
  ∧ (X, Y, Z) ∈ oyz fs ∧ (X + 1, Y, Z) ∈ oyz fs
  ∧ (X, Y, Z) ∈ ozx fs ∧ (X, Y + 1, Z) ∈ ozx fs.
Proof.
  intros Hiter Hocc. cbv zeta beta iota.
  destruct (build_grid iter flat) as [Hd _].
  destruct (grid_get_bounds _ x y z Hd) as (Hx & Hy & Hz); [by eexists |].
  assert (∀ tx ty tz, -1 ≤ tx ≤ 1 → -1 ≤ ty ≤ 1 → -1 ≤ tz ≤ 1 →
                      [tx; ty; tz] ∈ NEIGHBORS) as Hn.
  { intros tx ty tz ? ? ?. apply NEIGHBORS_elem. by exists tx, ty, tz. }
  assert (∀ p, inserted xy_anchors (build iter flat).2 p →
               p ∈ oxy (build iter flat).1) as Hxy.
  { intros p Hp. by apply (build_faces iter flat p Hiter). }
  assert (∀ p, inserted yz_anchors (build iter flat).2 p →
               p ∈ oyz (build iter flat).1) as Hyz.
  { intros p Hp. by apply (build_faces iter flat p Hiter). }
  assert (∀ p, inserted zx_anchors (build iter flat).2 p →
               p ∈ ozx (build iter flat).1) as Hzx.
  { intros p Hp. by apply (build_faces iter flat p Hiter). }
  assert (∀ n m : nat, (n + 1 < m)%nat → ((n + 1) mod m = n + 1)%nat) as Hsmall.
  { intros n m Hnm. by apply Nat.mod_small. }
  assert (∀ m : nat, (0 < m)%nat → ((m - 1 + 1) mod m = 0)%nat) as Hwrap.
  { intros m Hm. replace (m - 1 + 1)%nat with m by lia.
    by apply Nat.Div0.mod_same. }
  split_and!.
  - apply Hxy. exists x, y, z, 0, 0, 0. split_and!; [done | apply Hn; lia |].
    unfold xy_anchors, shift12, shift9. apply elem_of_cons. left.
    point_eq.
  - apply Hxy. destruct (decide (z = 8%nat)) as [-> | Hne].
    + exists x, y, 8%nat, 0, 0, 1. split_and!; [done | apply Hn; lia |].
      unfold xy_anchors, shift12, shift9. apply elem_of_cons. right.
      apply elem_of_cons. left. change ((8 + 1) mod 9)%nat with 0%nat.
      point_eq.
    + exists x, y, z, 0, 0, 0. split_and!; [done | apply Hn; lia |].
      unfold xy_anchors, shift12, shift9. apply elem_of_cons. right.
      apply elem_of_cons. left. rewrite Hsmall by lia.
      point_eq.
  - apply Hyz. exists x, y, z, 0, 0, 0. split_and!; [done | apply Hn; lia |].
    unfold yz_anchors, shift12, shift9. apply elem_of_cons. left.
    point_eq.
  - apply Hyz. destruct (decide (x = 11%nat)) as [-> | Hne].
    + exists 11%nat, y, z, 1, 0, 0. split_and!; [done | apply Hn; lia |].
      unfold yz_anchors, shift12, shift9. apply elem_of_cons. right.
      apply elem_of_cons. left. change ((11 + 1) mod 12)%nat with 0%nat.
      point_eq.
    + exists x, y, z, 0, 0, 0. split_and!; [done | apply Hn; lia |].
      unfold yz_anchors, shift12, shift9. apply elem_of_cons. right.
      apply elem_of_cons. left. rewrite Hsmall by lia.
      point_eq.
  - apply Hzx. exists x, y, z, 0, 0, 0. split_and!; [done | apply Hn; lia |].
    unfold zx_anchors, shift12, shift9. apply elem_of_cons. left.
    point_eq.
  - apply Hzx. destruct (decide (y = 11%nat)) as [-> | Hne].
    + exists x, 11%nat, z, 0, 1, 0. split_and!; [done | apply Hn; lia |].
      unfold zx_anchors, shift12, shift9. apply elem_of_cons. right.
      apply elem_of_cons. left. change ((11 + 1) mod 12)%nat with 0%nat.
      point_eq.
    + exists x, y, z, 0, 0, 0. split_and!; [done | apply Hn; lia |].
      unfold zx_anchors, shift12, shift9. apply elem_of_cons. right.
      apply elem_of_cons. left. rewrite Hsmall by lia.
      point_eq.
Qed.

Lemma sample_occupied : occupied (build iter_elements sample_flat).2 0 0 0.
Proof. by vm_compute. Qed.

Lemma X10_cell_closed_witness :
  let fs := (build iter_elements sample_flat).1 in
  (0, 0, 0) ∈ oxy fs ∧ (0, 0, 0 + 1) ∈ oxy fs
  ∧ (0, 0, 0) ∈ oyz fs ∧ (0 + 1, 0, 0) ∈ oyz fs
  ∧ (0, 0, 0) ∈ ozx fs ∧ (0, 0 + 1, 0) ∈ ozx fs.
Proof.
  exact (X10_cell_closed iter_elements sample_flat 0 0 0
           iter_elements_enumerates sample_occupied).
Defined.

(** Where the anchors of a cell of the grid can lie. *)
Lemma anchors_bounds (x y z : nat) (tx ty tz : Z) (p : point) :
  (x < 12)%nat → (y < 12)%nat → (z < 9)%nat →
  -1 ≤ tx ≤ 1 → -1 ≤ ty ≤ 1 → -1 ≤ tz ≤ 1 →
  p ∈ xy_anchors x y z tx ty tz ∨ p ∈ yz_anchors x y z tx ty tz
  ∨ p ∈ zx_anchors x y z tx ty tz →
  -12 ≤ p.1.1 < 24 ∧ -12 ≤ p.1.2 < 24 ∧ -9 ≤ p.2 < 18.
Proof.
  intros Hx Hy Hz Htx Hty Htz.
  pose proof (next_lt x 12 ltac:(lia)). pose proof (next_lt y 12 ltac:(lia)).
  pose proof (next_lt z 9 ltac:(lia)).
  unfold xy_anchors, yz_anchors, zx_anchors, shift12, shift9.
  rewrite !elem_of_cons, !elem_of_nil.
  intros [[-> | [-> | []]] | [[-> | [-> | []]] | [-> | [-> | []]]]];
    simpl; lia.
Qed.

Lemma inserted_bounds (anchors : nat → nat → nat → Z → Z → Z → list point)
    (g : grid) (p : point) :
  grid_dims g →
  (∀ x y z tx ty tz q, q ∈ anchors x y z tx ty tz →
     q ∈ xy_anchors x y z tx ty tz ∨ q ∈ yz_anchors x y z tx ty tz
     ∨ q ∈ zx_anchors x y z tx ty tz) →
  inserted anchors g p →
  -12 ≤ p.1.1 < 24 ∧ -12 ≤ p.1.2 < 24 ∧ -9 ≤ p.2 < 18.
Proof.
  intros Hd Hsub (x & y & z & tx & ty & tz & Hocc & Ht & Hp).
  destruct (grid_get_bounds g x y z Hd) as (Hx & Hy & Hz); [by eexists |].
  apply NEIGHBORS_elem in Ht as (tx' & ty' & tz' & [= -> -> ->] & ? & ? & ?).
  eapply (anchors_bounds x y z tx' ty' tz'); eauto.
Qed.

Lemma quads_elem (T : list point) (l : list point) (p : point) :
  p ∈ flat_map (quad T) l ↔ ∃ i t, i ∈ l ∧ t ∈ T ∧ p = padd i t.
Proof.
  rewrite list_elem_of_In, in_flat_map. unfold quad. split.
  - intros (i & Hi & Hp). apply in_map_iff in Hp as (t & <- & Ht).
    exists i, t. by rewrite <- !list_elem_of_In in *.
  - intros (i & t & Hi & Ht & ->). exists i.
    rewrite <- list_elem_of_In. split; [done |].
    apply in_map_iff. exists t. by rewrite <- list_elem_of_In.
Qed.

(** X11: every vertex of the buffer has integer coordinates inside the
    block of 3 x 3 x 3 copies of the map: x and y in [-12, 24], z in
    [-9, 18]. *)
Theorem X11_vertex_bounds (iter : set_order) {Picobot bytes : Type}
    (Picobot_new : pyfloat → pyfloat → pyfloat → grid → Picobot)
    (context_program : gmap string bytes) (color : bytes)
    (SPACE : tile_library) (mapid : list Z) (rnd : nat → Z) (fuel : nat)
    (v : View Picobot bytes) (p : point) :
  enumerates iter →
  View_init iter Picobot_new context_program color SPACE mapid rnd fuel
    = Return v →
  p ∈ vao v →
  -12 ≤ p.1.1 ≤ 24 ∧ -12 ≤ p.1.2 ≤ 24 ∧ -9 ≤ p.2 ≤ 18.
Proof.
  intros Hiter (flat & c & Hstack & Hne & Hc & ->)%View_init_Return Hp.
  cbn [vao] in Hp. unfold emit in Hp.
  destruct (build_grid iter flat) as [Hd _].
  assert (∀ (s : gset point) q, q ∈ iter _ _ _ s ↔ q ∈ s) as Hel.
  { intros s q. by rewrite (Hiter _ _ _ s), elem_of_elements. }
  assert (∀ i t, (i ∈ oxy (build iter flat).1 ∨ i ∈ oyz (build iter flat).1
                  ∨ i ∈ ozx (build iter flat).1) →
                 t ∈ OXY ∨ t ∈ OYZ ∨ t ∈ OZX →
                 -12 ≤ (padd i t).1.1 ≤ 24 ∧ -12 ≤ (padd i t).1.2 ≤ 24
                 ∧ -9 ≤ (padd i t).2 ≤ 18) as Hbound.
  { intros i t Hi Ht.
    assert (-12 ≤ i.1.1 < 24 ∧ -12 ≤ i.1.2 < 24 ∧ -9 ≤ i.2 < 18) as Hib.
    { destruct (build_faces iter flat i Hiter) as (Hxy & Hyz & Hzx).
      destruct Hi as [Hi | [Hi | Hi]].
      - apply Hxy in Hi. eapply inserted_bounds; [done | | done]. auto.
      - apply Hyz in Hi. eapply inserted_bounds; [done | | done]. auto.
      - apply Hzx in Hi. eapply inserted_bounds; [done | | done]. auto. }
    assert (0 ≤ t.1.1 ≤ 1 ∧ 0 ≤ t.1.2 ≤ 1 ∧ 0 ≤ t.2 ≤ 1) as Htb.
    { unfold OXY, OYZ, OZX in Ht. rewrite !elem_of_cons, !elem_of_nil in Ht.
      destruct Ht as [Ht | [Ht | Ht]];
        repeat (destruct Ht as [-> | Ht]; [simpl; lia |]); done. }
    unfold padd. simpl. lia. }
  rewrite !elem_of_app, !quads_elem in Hp.
  destruct Hp as [(i & t & Hi & Ht & ->) | [(i & t & Hi & Ht & ->)
                                           | (i & t & Hi & Ht & ->)]];
    apply Hel in Hi; apply Hbound; auto.
Qed.

Lemma X11_vertex_bounds_witness :
  -12 ≤ (0, 0, 0).1.1 ≤ 24 ∧ -12 ≤ (0, 0, 0).1.2 ≤ 24 ∧ -9 ≤ (0, 0, 0).2 ≤ 18.
Proof.
  apply (X11_vertex_bounds iter_elements sample_Picobot_new ∅ tt sample_SPACE
           sample_mapid sample_rnd 0 sample_View (0, 0, 0)
           iter_elements_enumerates sample_View_init).
  apply (bool_decide_unpack _). by vm_compute.
Defined.



(** ** The 27 copies of the base mesh *)

Lemma offsets_elem (t : Z * Z * Z) :
  t ∈ offsets ↔ -1 ≤ t.1.1 ≤ 1 ∧ -1 ≤ t.1.2 ≤ 1 ∧ -1 ≤ t.2 ≤ 1.
Proof.
  destruct t as [[tx ty] tz]. simpl. split.
  - intros Ht. unfold offsets in Ht. simpl in Ht.
    rewrite !elem_of_cons, elem_of_nil in Ht.
    repeat (destruct Ht as [[= -> -> ->] | Ht]; [lia |]). done.
  - intros (Hx & Hy & Hz).
    assert (tx = -1 ∨ tx = 0 ∨ tx = 1) as Ex by lia.
    assert (ty = -1 ∨ ty = 0 ∨ ty = 1) as Ey by lia.
    assert (tz = -1 ∨ tz = 0 ∨ tz = 1) as Ez by lia.
    destruct Ex as [-> | [-> | ->]], Ey as [-> | [-> | ->]],
             Ez as [-> | [-> | ->]];
      apply (bool_decide_unpack _); by vm_compute.
Qed.

Lemma offsets_NoDup : NoDup offsets.
Proof. apply (bool_decide_unpack _). by vm_compute. Qed.

Lemma offsets_length : length offsets = 27%nat.
Proof. reflexivity. Qed.

(** Two copies of base points coincide only for equal offsets and equal
    points. *)
Lemma copy_base_inj (t t' : Z * Z * Z) (q q' : point) :
  in_base q → in_base q' → copy t q = copy t' q' → t = t' ∧ q = q'.
Proof.
  destruct t as [[tx ty] tz], t' as [[tx' ty'] tz'],
           q as [[qx qy] qz], q' as [[qx' qy'] qz'].
  unfold in_base, copy. simpl. intros (? & ? & ?) (? & ? & ?) [= Hx Hy Hz].
  assert (tx = tx') by lia. assert (ty = ty') by lia.
  assert (tz = tz') by lia. subst. split; [done |]. point_eq.
Qed.

Lemma copy_zero (q : point) : copy (0, 0, 0) q = q.
Proof. destruct q as [[qx qy] qz]. unfold copy. simpl. point_eq. Qed.

Lemma bind_length_uniform {A B} (f : A → list B) (l : list A) (n : nat) :
  (∀ a, length (f a) = n) → length (l ≫= f) = (length l * n)%nat.
Proof.
  intros Hf. induction l as [| a l IH]; [done |].
  rewrite bind_cons, length_app, IH, Hf. simpl. lia.
Qed.

Lemma xy_anchors_periodic : periodic xy_anchors.
Proof.
  split.
  - intros. unfold xy_anchors, copy, shift12, shift9. simpl.
    repeat f_equal; lia.
  - intros x y z q Hx Hy Hz. pose proof (next_lt z 9 ltac:(lia)).
    unfold xy_anchors, shift12, shift9, in_base.
    rewrite !elem_of_cons, elem_of_nil. intros [-> | [-> | []]]; simpl; lia.
Qed.

Lemma yz_anchors_periodic : periodic yz_anchors.
Proof.
  split.
  - intros. unfold yz_anchors, copy, shift12, shift9. simpl.
    repeat f_equal; lia.
  - intros x y z q Hx Hy Hz. pose proof (next_lt x 12 ltac:(lia)).
    unfold yz_anchors, shift12, shift9, in_base.
    rewrite !elem_of_cons, elem_of_nil. intros [-> | [-> | []]]; simpl; lia.
Qed.

Lemma zx_anchors_periodic : periodic zx_anchors.
Proof.
  split.
  - intros. unfold zx_anchors, copy, shift12, shift9. simpl.
    repeat f_equal; lia.
  - intros x y z q Hx Hy Hz. pose proof (next_lt y 12 ltac:(lia)).
    unfold zx_anchors, shift12, shift9, in_base.
    rewrite !elem_of_cons, elem_of_nil. intros [-> | [-> | []]]; simpl; lia.
Qed.

(** A set that holds exactly the inserted anchors is the union of the 27
    copies of its base part. *)
Lemma copies_elem (anchors : nat → nat → nat → Z → Z → Z → list point)
    (g : grid) (s : gset point) (p : point) :
  periodic anchors → grid_dims g →
  (∀ q, q ∈ s ↔ inserted anchors g q) →
  p ∈ s ↔ ∃ q t, q ∈ s ∧ in_base q ∧ t ∈ offsets ∧ p = copy t q.
Proof.
  intros [Hshift Hbase] Hd Hs. split.
  - intros (x & y & z & tx & ty & tz & Hocc & Ht & Hp)%Hs.
    destruct (grid_get_bounds g x y z Hd) as (Hx & Hy & Hz); [by eexists |].
    rewrite Hshift in Hp. apply list_elem_of_fmap in Hp as (q & -> & Hq).
    exists q, (tx, ty, tz).
    split_and!; [| exact (Hbase x y z q Hx Hy Hz Hq) | | done].
    + apply Hs. exists x, y, z, 0, 0, 0. split_and!; [done | | done].
      apply NEIGHBORS_elem. exists 0, 0, 0. split; [done | lia].
    + apply offsets_elem. simpl.
      apply NEIGHBORS_elem in Ht as (? & ? & ? & [= <- <- <-] & ?). lia.
  - intros (q & [[tx ty] tz] & Hq & Hqb & Ht & ->).
    apply Hs in Hq as (x & y & z & tx' & ty' & tz' & Hocc & Ht' & Hq).
    destruct (grid_get_bounds g x y z Hd) as (Hx & Hy & Hz); [by eexists |].
    rewrite Hshift in Hq. apply list_elem_of_fmap in Hq as (q0 & -> & Hq0).
    pose proof (Hbase x y z q0 Hx Hy Hz Hq0) as Hq0b.
    destruct (copy_base_inj (tx', ty', tz') (0, 0, 0) q0
                (copy (tx', ty', tz') q0)) as [[= -> -> ->] _];
      [done | done | by rewrite copy_zero |].
    rewrite copy_zero. apply Hs. exists x, y, z, tx, ty, tz.
    split_and!; [done | |].
    + apply offsets_elem in Ht. simpl in Ht. apply NEIGHBORS_elem.
      exists tx, ty, tz. split; [done | lia].
    + rewrite Hshift. by apply list_elem_of_fmap_2.
Qed.

Lemma copies_size (anchors : nat → nat → nat → Z → Z → Z → list point)
    (g : grid) (s : gset point) :
  periodic anchors → grid_dims g →
  (∀ q, q ∈ s ↔ inserted anchors g q) →
  size s = (27 * size (filter in_base s))%nat.
Proof.
  intros Hper Hd Hs.
  set (B := filter in_base s).
  set (M := offsets ≫= (λ t, copy t <$> elements B)).
  assert (s = list_to_set M) as Hunion.
  { apply set_eq. intros p. rewrite elem_of_list_to_set.
    rewrite (copies_elem anchors g s p Hper Hd Hs).
    unfold M. rewrite list_elem_of_bind. split.
    - intros (q & t & Hq & Hqb & Ht & ->). exists t. split; [| done].
      apply list_elem_of_fmap_2, elem_of_elements, elem_of_filter. done.
    - intros (t & Hp & Ht). apply list_elem_of_fmap in Hp as (q & -> & Hq).
      apply elem_of_elements, elem_of_filter in Hq as [Hqb Hq].
      by exists q, t. }
  assert (NoDup M) as Hnd.
  { unfold M. apply NoDup_bind; [| | apply offsets_NoDup].
    - intros t1 t2 p _ _ Hp1 Hp2.
      apply list_elem_of_fmap in Hp1 as (q1 & -> & Hq1).
      apply list_elem_of_fmap in Hp2 as (q2 & Heq & Hq2).
      apply elem_of_elements, elem_of_filter in Hq1 as [Hb1 _].
      apply elem_of_elements, elem_of_filter in Hq2 as [Hb2 _].
      by destruct (copy_base_inj t1 t2 q1 q2 Hb1 Hb2 Heq).
    - intros t _. apply NoDup_fmap_2_strong; [| apply NoDup_elements].
      intros q1 q2 Hq1 Hq2 Heq.
      apply elem_of_elements, elem_of_filter in Hq1 as [Hb1 _].
      apply elem_of_elements, elem_of_filter in Hq2 as [Hb2 _].
      by destruct (copy_base_inj t t q1 q2 Hb1 Hb2 Heq). }
  rewrite Hunion at 1. rewrite size_list_to_set by done. unfold M.
  rewrite (bind_length_uniform _ _ (size B)).
  - rewrite offsets_length. done.
  - intros t. by rewrite length_fmap.
Qed.

(** X13: each face set is the base mesh repeated 27 times: its anchors
    are exactly the anchors it has inside the base copy
    [0,12) x [0,12) x [0,9), moved by each offset of {-1,0,1}^3 in whole
    map lengths, and so it has 27 times as many anchors as lie in the
    base copy. *)
Theorem X13_twenty_seven_copies (iter : set_order) (flat : list bool)
    (s : gset point) :
  enumerates iter →
  s ∈ [oxy (build iter flat).1; oyz (build iter flat).1;
       ozx (build iter flat).1] →
  (∀ p, p ∈ s ↔ ∃ q t, q ∈ s ∧ in_base q ∧ t ∈ offsets ∧ p = copy t q)
  ∧ size s = (27 * size (filter in_base s))%nat.
Proof.
  intros Hiter Hs. destruct (build_grid iter flat) as [Hd _].
  rewrite !elem_of_cons, elem_of_nil in Hs.
  destruct Hs as [-> | [-> | [-> | []]]].
  - assert (∀ q, q ∈ oxy (build iter flat).1
                 ↔ inserted xy_anchors (build iter flat).2 q) as Hchar.
    { intros q. apply (build_faces iter flat q Hiter). }
    split.
    + intros p.
      apply (copies_elem xy_anchors _ _ p xy_anchors_periodic Hd Hchar).
    + apply (copies_size xy_anchors _ _ xy_anchors_periodic Hd Hchar).
  - assert (∀ q, q ∈ oyz (build iter flat).1
                 ↔ inserted yz_anchors (build iter flat).2 q) as Hchar.
    { intros q. apply (build_faces iter flat q Hiter). }
    split.
    + intros p.
      apply (copies_elem yz_anchors _ _ p yz_anchors_periodic Hd Hchar).
    + apply (copies_size yz_anchors _ _ yz_anchors_periodic Hd Hchar).
  - assert (∀ q, q ∈ ozx (build iter flat).1
                 ↔ inserted zx_anchors (build iter flat).2 q) as Hchar.
    { intros q. apply (build_faces iter flat q Hiter). }
    split.
    + intros p.
      apply (copies_elem zx_anchors _ _ p zx_anchors_periodic Hd Hchar).
    + apply (copies_size zx_anchors _ _ zx_anchors_periodic Hd Hchar).
Qed.

Lemma X13_twenty_seven_copies_witness :
  (∀ p, p ∈ oxy (build iter_elements sample_flat).1 ↔
        ∃ q t, q ∈ oxy (build iter_elements sample_flat).1 ∧
               in_base q ∧ t ∈ offsets ∧ p = copy t q)
  ∧ size (oxy (build iter_elements sample_flat).1)
    = (27 * size (filter in_base (oxy (build iter_elements sample_flat).1)))%nat.
Proof.
  apply (X13_twenty_seven_copies iter_elements sample_flat
           (oxy (build iter_elements sample_flat).1) iter_elements_enumerates).
  apply elem_of_cons. by left.
Defined.

(** X14: the vertex buffer holds 162 vertices (27 copies of a six-vertex
    quad) for every anchor that lies in the base copy of the map. *)
Theorem X14_vertex_count (iter : set_order) {Picobot bytes : Type}
    (Picobot_new : pyfloat → pyfloat → pyfloat → grid → Picobot)
    (context_program : gmap string bytes) (color : bytes)
    (SPACE : tile_library) (mapid : list Z) (rnd : nat → Z) (fuel : nat)
    (v : View Picobot bytes) :
  enumerates iter →
  View_init iter Picobot_new context_program color SPACE mapid rnd fuel
    = Return v →
  ∃ flat, stack_reshape SPACE mapid = Return flat ∧
    let fs := (build iter flat).1 in
    length (vao v)
    = (162 * (size (filter in_base (oxy fs)) + size (filter in_base (oyz fs))
              + size (filter in_base (ozx fs))))%nat.
Proof.
  intros Hiter (flat & c & Hstack & Hne & Hc & ->)%View_init_Return.
  exists flat. split; [done |]. cbv zeta. cbn [vao].
  destruct (build_grid iter flat) as [Hd _].
  rewrite emit_length by done.
  rewrite (copies_size xy_anchors (build iter flat).2 (oxy _)
             xy_anchors_periodic Hd);
    [| intros q; apply (build_faces iter flat q Hiter)].
  rewrite (copies_size yz_anchors (build iter flat).2 (oyz _)
             yz_anchors_periodic Hd);
    [| intros q; apply (build_faces iter flat q Hiter)].
  rewrite (copies_size zx_anchors (build iter flat).2 (ozx _)
             zx_anchors_periodic Hd);
    [| intros q; apply (build_faces iter flat q Hiter)].
  lia.
Qed.

Lemma X14_vertex_count_witness :
  ∃ flat, stack_reshape sample_SPACE sample_mapid = Return flat ∧
    let fs := (build iter_elements flat).1 in
    length (vao sample_View)
    = (162 * (size (filter in_base (oxy fs)) + size (filter in_base (oyz fs))
              + size (filter in_base (ozx fs))))%nat.
Proof.
  exact (X14_vertex_count iter_elements sample_Picobot_new ∅ tt sample_SPACE
           sample_mapid sample_rnd 0 sample_View iter_elements_enumerates
           sample_View_init).
Defined.

(** ** Rendering and the program's uniforms *)

Section RenderFacts.

Context {Picobot bytes num vec mat : Type}.
Context (fdiv : num → num → num) (near far : num).
Context (vadd : vec → vec → vec).
Context (perspective_projection : num → num → num → num → mat).
Context (look_at : vec → vec → vec → mat).
Context (mmul : mat → mat → mat).
Context (mat_tobytes : mat → bytes) (vec_tobytes : vec → bytes).
Context (Picobot_pos : Picobot → vec).
Context (Picobot_rotation : Picobot → vec * vec * vec).

Local Abbreviation render_view :=
  (render fdiv near far vadd perspective_projection look_at mmul
          mat_tobytes vec_tobytes Picobot_pos Picobot_rotation).

Lemma render_prog (w : world (Picobot:=Picobot) (bytes:=bytes))
    (width height fov : num) :
  let pos := Picobot_pos (camera w.1) in
  let forward := (Picobot_rotation (camera w.1)).2 in
  let upward := (Picobot_rotation (camera w.1)).1.2 in
  let proj := perspective_projection fov (fdiv width height) near far in
  let look := look_at pos (vadd pos forward) upward in
  (render_view width height fov w).2
  = (MkView (space w.1)
            (<["eye" := vec_tobytes pos]>
               (<["mvp" := mat_tobytes (mmul proj look)]> (prog w.1)))
            (vao w.1) (camera w.1),
     w.2 ++ [TRIANGLES]).
Proof. by destruct w as [[sp pr va ca] draws]. Qed.

Lemma render_other_uniform (w : world (Picobot:=Picobot) (bytes:=bytes))
    (width height fov : num) (name : string) :
  name ≠ "mvp" → name ≠ "eye" →
  prog (render_view width height fov w).2.1 !! name = prog w.1 !! name.
Proof.
  intros Hmvp Heye. rewrite render_prog. cbn [fst prog].
  by rewrite !lookup_insert_ne.
Qed.

Lemma render_last_wins (w : world (Picobot:=Picobot) (bytes:=bytes))
    (width height fov width' height' fov' : num) :
  (render_view width' height' fov' (render_view width height fov w).2).2.1
  = (render_view width' height' fov' w).2.1.
Proof.
  rewrite !render_prog. cbn [fst snd space prog vao camera]. f_equal.
  apply map_eq. intros name.
  destruct (decide (name = "eye")) as [-> | Heye].
  { by rewrite !lookup_insert_eq. }
  rewrite !(lookup_insert_ne _ "eye") by done.
  destruct (decide (name = "mvp")) as [-> | Hmvp].
  { by rewrite !lookup_insert_eq. }
  rewrite !(lookup_insert_ne _ "mvp") by done.
  by rewrite !lookup_insert_ne.
Qed.

End RenderFacts.

(** X15: rendering writes the uniforms [mvp] and [eye] and no other: any
    uniform with another name keeps the value it had. *)
Theorem X15_render_other_uniforms {Picobot bytes num vec mat : Type}
    (fdiv : num → num → num) (near far : num) (vadd : vec → vec → vec)
    (perspective_projection : num → num → num → num → mat)
    (look_at : vec → vec → vec → mat) (mmul : mat → mat → mat)
    (mat_tobytes : mat → bytes) (vec_tobytes : vec → bytes)
    (Picobot_pos : Picobot → vec)
    (Picobot_rotation : Picobot → vec * vec * vec)
    (v : View Picobot bytes) (draws : list mode) (width height fov : num)
    (name : string) :
  name ≠ "mvp" → name ≠ "eye" →
  prog (render fdiv near far vadd perspective_projection look_at mmul
               mat_tobytes vec_tobytes Picobot_pos Picobot_rotation
               width height fov (v, draws)).2.1 !! name
  = prog v !! name.
Proof. intros. by apply render_other_uniform. Qed.

Lemma X15_render_other_uniforms_witness :
  prog (render (λ _ _ : unit, tt) tt tt (λ _ _ : unit, tt)
               (λ _ _ _ _ : unit, tt) (λ _ _ _ : unit, tt)
               (λ _ _ : unit, tt) (λ _ : unit, tt) (λ _ : unit, tt)
               (λ _ : pyfloat * pyfloat * pyfloat, tt)
               (λ _ : pyfloat * pyfloat * pyfloat, (tt, tt, tt))
               tt tt tt (sample_View, [])).2.1 !! "color"
  = prog sample_View !! "color".
Proof.
  apply (X15_render_other_uniforms (λ _ _ : unit, tt) tt tt (λ _ _ : unit, tt)
           (λ _ _ _ _ : unit, tt) (λ _ _ _ : unit, tt)
           (λ _ _ : unit, tt) (λ _ : unit, tt) (λ _ : unit, tt)
           (λ _ : pyfloat * pyfloat * pyfloat, tt)
           (λ _ : pyfloat * pyfloat * pyfloat, (tt, tt, tt))
           sample_View [] tt tt tt "color"); done.
Defined.

(** X16: the colour written by the constructor survives rendering: on an
    object the constructor returned, the uniform [color] still holds the
    constructor's colour after a call of [render], and the grid is the
    one the constructor assembled. *)
Theorem X16_colour_survives_render (iter : set_order)
    {Picobot bytes num vec mat : Type}
    (Picobot_new : pyfloat → pyfloat → pyfloat → grid → Picobot)
    (context_program : gmap string bytes) (color : bytes)
    (fdiv : num → num → num) (near far : num) (vadd : vec → vec → vec)
    (perspective_projection : num → num → num → num → mat)
    (look_at : vec → vec → vec → mat) (mmul : mat → mat → mat)
    (mat_tobytes : mat → bytes) (vec_tobytes : vec → bytes)
    (Picobot_pos : Picobot → vec)
    (Picobot_rotation : Picobot → vec * vec * vec)
    (SPACE : tile_library) (mapid : list Z) (rnd : nat → Z) (fuel : nat)
    (v : View Picobot bytes) (draws : list mode) (width height fov : num) :
  View_init iter Picobot_new context_program color SPACE mapid rnd fuel
    = Return v →
  let v' := (render fdiv near far vadd perspective_projection look_at mmul
                    mat_tobytes vec_tobytes Picobot_pos Picobot_rotation
                    width height fov (v, draws)).2.1 in
  prog v' !! "color" = Some color
  ∧ ∃ flat, stack_reshape SPACE mapid = Return flat
            ∧ space v' = (build iter flat).2.
Proof.
  intros (flat & c & Hstack & Hne & Hc & ->)%View_init_Return. cbv zeta.
  split.
  - rewrite render_other_uniform by done. cbn [fst prog].
    by rewrite lookup_insert_eq.
  - exists flat. split; [done |]. by rewrite render_prog.
Qed.

Lemma X16_colour_survives_render_witness :
  let v' := (render (λ _ _ : unit, tt) tt tt (λ _ _ : unit, tt)
               (λ _ _ _ _ : unit, tt) (λ _ _ _ : unit, tt)
               (λ _ _ : unit, tt) (λ _ : unit, tt) (λ _ : unit, tt)
               (λ _ : pyfloat * pyfloat * pyfloat, tt)
               (λ _ : pyfloat * pyfloat * pyfloat, (tt, tt, tt))
               tt tt tt (sample_View, [])).2.1 in
  prog v' !! "color" = Some tt
  ∧ ∃ flat, stack_reshape sample_SPACE sample_mapid = Return flat
            ∧ space v' = (build iter_elements flat).2.
Proof.
  exact (X16_colour_survives_render iter_elements sample_Picobot_new ∅ tt
           (λ _ _ : unit, tt) tt tt (λ _ _ : unit, tt)
           (λ _ _ _ _ : unit, tt) (λ _ _ _ : unit, tt)
           (λ _ _ : unit, tt) (λ _ : unit, tt) (λ _ : unit, tt)
           (λ _ : pyfloat * pyfloat * pyfloat, tt)
           (λ _ : pyfloat * pyfloat * pyfloat, (tt, tt, tt))
           sample_SPACE sample_mapid sample_rnd 0 sample_View [] tt tt tt
           sample_View_init).
Defined.

(** X17: rendering keeps no history in the object: after two calls of
    [render], with any arguments, the object is as after the second call
    alone (in particular a repeated call changes nothing further), while
    the backend has received one draw call per [render]. *)
Theorem X17_render_last_wins {Picobot bytes num vec mat : Type}
    (fdiv : num → num → num) (near far : num) (vadd : vec → vec → vec)
    (perspective_projection : num → num → num → num → mat)
    (look_at : vec → vec → vec → mat) (mmul : mat → mat → mat)
    (mat_tobytes : mat → bytes) (vec_tobytes : vec → bytes)
    (Picobot_pos : Picobot → vec)
    (Picobot_rotation : Picobot → vec * vec * vec)
    (v : View Picobot bytes) (draws : list mode)
    (width height fov width' height' fov' : num) :
  let once := render fdiv near far vadd perspective_projection look_at mmul
                     mat_tobytes vec_tobytes Picobot_pos Picobot_rotation
                     width' height' fov' (v, draws) in
  let twice := render fdiv near far vadd perspective_projection look_at mmul
                      mat_tobytes vec_tobytes Picobot_pos Picobot_rotation
                      width' height' fov'
                      (render fdiv near far vadd perspective_projection
                              look_at mmul mat_tobytes vec_tobytes Picobot_pos
                              Picobot_rotation width height fov (v, draws)).2 in
  twice.2.1 = once.2.1 ∧ twice.2.2 = draws ++ [TRIANGLES; TRIANGLES].
Proof.
  cbv zeta. split; [apply render_last_wins |].
  rewrite !render_prog. cbn [fst snd]. by rewrite <- app_assoc.
Qed.

(** ** What the random generator decides *)

(** X18: the random generator decides the camera and nothing else: two
    finished constructions from the same identifiers, with different
    generator streams and redraw budgets, have the same occupancy grid,
    the same program uniforms and the same vertex buffer. *)
Theorem X18_generator_only_places_camera (iter : set_order)
    {Picobot bytes : Type}
    (Picobot_new : pyfloat → pyfloat → pyfloat → grid → Picobot)
    (context_program : gmap string bytes) (color : bytes)
    (SPACE : tile_library) (mapid : list Z)
    (rnd rnd' : nat → Z) (fuel fuel' : nat) (v v' : View Picobot bytes) :
  View_init iter Picobot_new context_program color SPACE mapid rnd fuel
    = Return v →
  View_init iter Picobot_new context_program color SPACE mapid rnd' fuel'
    = Return v' →
  space v = space v' ∧ prog v = prog v' ∧ vao v = vao v'.
Proof.
  intros (flat & c & Hstack & _ & _ & ->)%View_init_Return
         (flat' & c' & Hstack' & _ & _ & ->)%View_init_Return.
  rewrite Hstack in Hstack'. injection Hstack' as <-. done.
Qed.

Lemma X18_generator_only_places_camera_witness :
  space sample_View = space sample_View ∧ prog sample_View = prog sample_View
  ∧ vao sample_View = vao sample_View.
Proof.
  exact (X18_generator_only_places_camera iter_elements sample_Picobot_new ∅
           tt sample_SPACE sample_mapid sample_rnd sample_rnd 0 0 sample_View
           sample_View sample_View_init sample_View_init).
Defined.
